(** * The arXiv topic search aggregator

    A shallow embedding of [src/fetcher/arxiv_search.py] (the class
    [ArxivClient] with its constructor and [search_papers]) and of the
    defaults of [config/config.py], followed by the properties the
    specification states about them.

    Conventions of the embedding:
    - a Python [str] is a [string]; [str.split], [str.replace] and list
      indexing are modelled by the functions of the module [PyStr];
    - a timezone-aware [datetime] is the number of microseconds since the
      epoch, a [Z]; a [timedelta] is a number of microseconds; leaving
      the range of either raises [OverflowError];
    - the [dict] [all_papers] is an association list in insertion order,
      which is the order Python's [dict.values()] iterates in;
    - the generator returned by [self._client.results(search)] is a finite
      lazy sequence that ends normally or by raising ([Gen]);
    - the loop of [search_papers] runs in a state-and-exception monad whose
      state holds [all_papers] and the log of what was asked of the
      collaborator. *)

From Stdlib Require Import List String Ascii Bool Arith ZArith Lia.
From Stdlib Require Import Permutation Sorted.
From Stdlib Require Import Floats.
Import ListNotations.

Set Implicit Arguments.

(* ================================================================= *)
(** ** Python string operations *)

Module PyStr.

Local Open Scope string_scope.

(** [s.split(sep)] for a separator of one character: the segments between
    the occurrences of [sep], always at least one. *)
Fixpoint split (sep : ascii) (s : string) : list string :=
  match s with
  | EmptyString => [EmptyString]
  | String c s' =>
      if Ascii.eqb c sep then EmptyString :: split sep s'
      else match split sep s' with
           | seg :: segs => String c seg :: segs
           | [] => [String c EmptyString]
           end
  end.

(** [l[0]] and [l[-1]]; Python raises [IndexError] on the empty list,
    which [None] stands for. *)
Definition first (l : list string) : option string :=
  match l with
  | [] => None
  | x :: _ => Some x
  end.

Fixpoint last (l : list string) : option string :=
  match l with
  | [] => None
  | [x] => Some x
  | _ :: l' => last l'
  end.

(** [s.replace(old, new)] for a non-empty [old]: the non-overlapping
    occurrences of [old] are replaced from left to right.  [skip] counts
    the characters of a matched occurrence that are still to be dropped. *)
Fixpoint replace_from (old new : string) (skip : nat) (s : string) : string :=
  match s with
  | EmptyString => EmptyString
  | String c s' =>
      match skip with
      | S k => replace_from old new k s'
      | O =>
          if String.prefix old s
          then new ++ replace_from old new (String.length old - 1) s'
          else String c (replace_from old new 0 s')
      end
  end.

Definition replace (old new s : string) : string :=
  replace_from old new 0 s.

(** [c in s] for a character. *)
Fixpoint mem (c : ascii) (s : string) : bool :=
  match s with
  | EmptyString => false
  | String d s' => Ascii.eqb d c || mem c s'
  end.

End PyStr.

(* ================================================================= *)
(** ** Identifier extraction (line 103) *)

Local Open Scope string_scope.

Definition LF : ascii := Ascii.ascii_of_nat 10.
Definition newline : string := String LF EmptyString.

(** [result.entry_id.split("/")[-1].replace("abs/", "").split("v")[0]].
    Both indexings are on the result of a [split], which is never empty;
    the [None] branches are the [IndexError] that cannot occur. *)
Definition extract_id_opt (entry_id : string) : option string :=
  match PyStr.last (PyStr.split "/" entry_id) with
  | None => None
  | Some seg => PyStr.first (PyStr.split "v" (PyStr.replace "abs/" "" seg))
  end.

Definition extract_id (entry_id : string) : string :=
  match extract_id_opt entry_id with
  | Some i => i
  | None => EmptyString
  end.

(* ================================================================= *)
(** ** Data model *)

(** A timezone-aware [datetime]: microseconds since the epoch. *)
Definition datetime := Z.

(** [timedelta(hours=h)], in microseconds. *)
Definition timedelta_hours (h : Z) : Z := (h * 3600000000)%Z.

(** The range of [datetime]: from 0001-01-01T00:00:00 to
    9999-12-31T23:59:59.999999.  Arithmetic that leaves it raises
    [OverflowError]. *)
Definition datetime_min : Z := (-62135596800000000)%Z.
Definition datetime_max : Z := 253402300799999999%Z.

Definition datetime_ok (t : Z) : bool :=
  ((datetime_min <=? t) && (t <=? datetime_max))%Z.

(** The range of [timedelta]: at most 999999999 days either way, the days
    of [timedelta(hours=h)] being [h // 24]; beyond it the constructor
    raises [OverflowError]. *)
Definition timedelta_ok (h : Z) : bool :=
  (Z.abs (h / 24) <=? 999999999)%Z.

(** What the [arxiv] library hands over: [arxiv.Result] and its
    [Result.Author], whose [__str__] is the author's name. *)
Module Raw.

Record Author : Type := { name : string }.

Definition str (a : Author) : string := name a.

Record Result : Type := {
  entry_id : string;
  title : string;
  authors : list Author;
  summary : string;
  pdf_url : string;
  published : datetime;
  categories : list string
}.

End Raw.

(** The frozen dataclass [ArxivPaper]. *)
Record ArxivPaper : Type := {
  arxiv_id : string;
  title : string;
  authors : list string;
  abstract : string;
  pdf_url : string;
  published : datetime;
  categories : list string
}.

(** [arxiv.Search(query, max_results, sort_by, sort_order)]. *)
Inductive SortCriterion : Type := Relevance | LastUpdatedDate | SubmittedDate.
Inductive SortOrder : Type := Ascending | Descending.

Record Search : Type := {
  query : string;
  search_max_results : Z;
  sort_by : SortCriterion;
  sort_order : SortOrder
}.

(** The settings of [config/config.py] and their declared defaults. *)
Record Settings : Type := {
  arxiv_max_results : Z;
  arxiv_delay_seconds : float;
  arxiv_hours_back : Z
}.

Definition default_settings : Settings :=
  {| arxiv_max_results := 30;
     arxiv_delay_seconds := 3%float;
     arxiv_hours_back := 24 |}.

(** The attributes of an [ArxivClient]. *)
Record ArxivClient : Type := {
  max_results : Z;
  delay_seconds : float;
  hours_back : Z
}.

(** Python's [x or d] on an optional [int] and on an optional [float]:
    [None], [0] and [0.0] are falsy. *)
Definition or_int (x : option Z) (d : Z) : Z :=
  match x with
  | None => d
  | Some v => if (v =? 0)%Z then d else v
  end.

Definition or_float (x : option float) (d : float) : float :=
  match x with
  | None => d
  | Some v => if PrimFloat.eqb v 0%float then d else v
  end.

(** [ArxivClient.__init__] (lines 48-52); [settings] is the module-level
    [Settings()] instance. *)
Definition init (settings : Settings)
    (max_results' : option Z) (delay_seconds' : option float)
    (hours_back' : option Z) : ArxivClient :=
  {| max_results := or_int max_results' (arxiv_max_results settings);
     delay_seconds := or_float delay_seconds' (arxiv_delay_seconds settings);
     hours_back := or_int hours_back' (arxiv_hours_back settings) |}.

(* ================================================================= *)
(** ** The dict [all_papers] *)

Module Dict.

Definition t : Type := list (string * ArxivPaper).

Definition empty : t := [].

(** [k in d] *)
Fixpoint mem (k : string) (d : t) : bool :=
  match d with
  | [] => false
  | (k', _) :: d' => String.eqb k' k || mem k d'
  end.

(** [d[k] = v]: an existing key keeps its position, a new one goes last. *)
Fixpoint set (k : string) (v : ArxivPaper) (d : t) : t :=
  match d with
  | [] => [(k, v)]
  | (k', v') :: d' =>
      if String.eqb k' k then (k', v) :: d' else (k', v') :: set k v d'
  end.

Definition keys (d : t) : list string := map fst d.

(** [d.values()], in insertion order. *)
Definition values (d : t) : list ArxivPaper := map snd d.

End Dict.

(* ================================================================= *)
(** ** [sorted(xs, key=..., reverse=True)] *)

(** Python's [sorted] is stable, also under [reverse=True]: elements with
    equal keys keep the order they have in the input. *)
Section Sorted.

Variable A : Type.
Variable key : A -> Z.

Fixpoint insert_desc (x : A) (l : list A) : list A :=
  match l with
  | [] => [x]
  | y :: l' =>
      if (key x <? key y)%Z then y :: insert_desc x l' else x :: y :: l'
  end.

Fixpoint sorted_desc (l : list A) : list A :=
  match l with
  | [] => []
  | x :: l' => insert_desc x (sorted_desc l')
  end.

End Sorted.

(* ================================================================= *)
(** ** The collaborator and the monad of [search_papers] *)

Section Aggregator.

(** The exceptions the [arxiv] client can raise. *)
Variable Err : Type.

(** The generator [self._client.results(search)]: it yields results one at
    a time and ends by [StopIteration] or by raising. *)
Inductive Gen : Type :=
| Stop
| Raise (e : Err)
| Yield (result : Raw.Result) (rest : Gen).

(** What the aggregator asks of the collaborator: a call of [results], or
    one more item pulled from the current generator. *)
Inductive Event : Type :=
| Query (search : Search)
| Next (result : Raw.Result).

(** The collaborator: its answer to a search may depend on everything that
    was exchanged with it before. *)
Variable results : list Event -> Search -> Gen.

(** The [OverflowError] of the [datetime] module, one of the exceptions. *)
Variable OverflowError : Err.

Record Frame : Type := {
  all_papers : Dict.t;
  log : list Event
}.

Inductive Outcome (A : Type) : Type :=
| Normal (a : A)
| Raised (e : Err).

Arguments Raised {A} e.

Definition M (A : Type) : Type := Frame -> Outcome A * Frame.

Definition ret {A} (a : A) : M A := fun fr => (Normal a, fr).

Definition bind {A B} (m : M A) (k : A -> M B) : M B :=
  fun fr =>
    match m fr with
    | (Normal a, fr') => k a fr'
    | (Raised e, fr') => (Raised e, fr')
    end.

Definition raise {A} (e : Err) : M A := fun fr => (Raised e, fr).

Definition emit (ev : Event) : M unit :=
  fun fr => (Normal tt, {| all_papers := all_papers fr; log := log fr ++ [ev] |}).

Definition get_papers : M Dict.t := fun fr => (Normal (all_papers fr), fr).

Definition set_paper (k : string) (v : ArxivPaper) : M unit :=
  fun fr => (Normal tt, {| all_papers := Dict.set k v (all_papers fr); log := log fr |}).

(** [self._client.results(search)] *)
Definition client_results (search : Search) : M Gen :=
  fun fr => (Normal (results (log fr) search),
             {| all_papers := all_papers fr; log := log fr ++ [Query search] |}).

Notation "x <- m ;; k" := (bind m (fun x => k))
  (at level 61, m at next level, right associativity).
Notation "m ;; k" := (bind m (fun _ => k))
  (at level 61, right associativity).

(** Lines 110-118. *)
Definition make_paper (arxiv_id : string) (result : Raw.Result) : ArxivPaper :=
  {| arxiv_id := arxiv_id;
     title := Raw.title result;
     authors := map Raw.str (Raw.authors result);
     abstract := PyStr.replace newline " " (Raw.summary result);
     pdf_url := Raw.pdf_url result;
     published := Raw.published result;
     categories := Raw.categories result |}.

(** The inner loop, lines 96-121 ([topic_count] only feeds the log
    message and is left out). *)
Fixpoint consume (cutoff_time : datetime) (g : Gen) : M unit :=
  match g with
  | Stop => ret tt
  | Raise e => raise e
  | Yield result g' =>
      emit (Next result) ;;
      if (Raw.published result <? cutoff_time)%Z then ret tt (* break *)
      else
        let arxiv_id := extract_id (Raw.entry_id result) in
        papers <- get_papers ;;
        if Dict.mem arxiv_id papers then consume cutoff_time g' (* continue *)
        else
          set_paper arxiv_id (make_paper arxiv_id result) ;;
          consume cutoff_time g'
  end.

(** The body of the outer loop, lines 85-128. *)
Definition search_topic (self : ArxivClient) (cutoff_time : datetime)
    (topic : string) : M unit :=
  let search := {| query := topic;
                   search_max_results := max_results self;
                   sort_by := SubmittedDate;
                   sort_order := Descending |} in
  g <- client_results search ;;
  consume cutoff_time g.

(** [for topic in topics: ...] *)
Fixpoint for_topics (self : ArxivClient) (cutoff_time : datetime)
    (topics : list string) : M unit :=
  match topics with
  | [] => ret tt
  | topic :: topics' =>
      search_topic self cutoff_time topic ;;
      for_topics self cutoff_time topics'
  end.

Definition initial : Frame := {| all_papers := Dict.empty; log := [] |}.

(** Line 80; [now] is [datetime.now(timezone.utc)].  [cutoff] is the
    value, [cutoff_ok] tells whether the [timedelta] and the difference
    are in range, and [cutoff_time_of] is the line with its
    [OverflowError]. *)
Definition cutoff (self : ArxivClient) (now : datetime) : datetime :=
  (now - timedelta_hours (hours_back self))%Z.

Definition cutoff_ok (self : ArxivClient) (now : datetime) : bool :=
  timedelta_ok (hours_back self) && datetime_ok (cutoff self now).

Definition cutoff_time_of (self : ArxivClient) (now : datetime) : M datetime :=
  if cutoff_ok self now then ret (cutoff self now) else raise OverflowError.

(** [search_papers] (lines 68-140).  The caller gets the outcome, a list
    or an exception; the log records what the collaborator was asked on
    the way. *)
Definition search_papers (self : ArxivClient) (now : datetime)
    (topics : list string) : Outcome (list ArxivPaper) * list Event :=
  let m :=
    cutoff_time <- cutoff_time_of self now ;;
    for_topics self cutoff_time topics ;;
    papers <- get_papers ;;
    ret (sorted_desc published (Dict.values papers)) in
  let (o, fr) := m initial in
  (o, log fr).

(** [search_single_topic] (lines 142-152). *)
Definition search_single_topic (self : ArxivClient) (now : datetime)
    (query : string) : Outcome (list ArxivPaper) * list Event :=
  search_papers self now [query].

End Aggregator.

Arguments Stop {Err}.
Arguments Raise {Err} e.
Arguments Yield {Err} result rest.
Arguments Raised {Err A} e.
Arguments Normal {Err A} a.

(* ================================================================= *)
(** ** Vocabulary of the statements *)

(** The part of [s] before its first occurrence of [c]. *)
Fixpoint before_first (c : ascii) (s : string) : string :=
  match s with
  | EmptyString => EmptyString
  | String d s' => if Ascii.eqb d c then EmptyString else String d (before_first c s')
  end.

(** The trailing path segment of a URI: what follows its last ["/"]. *)
Definition trailing_segment (uri : string) : string :=
  match PyStr.last (PyStr.split "/" uri) with
  | Some seg => seg
  | None => EmptyString
  end.

(** [s] with every character replaced by its image under [f]. *)
Fixpoint map_chars (f : ascii -> ascii) (s : string) : string :=
  match s with
  | EmptyString => EmptyString
  | String c s' => String (f c) (map_chars f s')
  end.

Definition unbreak (c : ascii) : ascii :=
  if Ascii.eqb c LF then " "%char else c.

(** *** The identifier as the specification words it

    The trailing path segment, without an ["abs/"] prefix if it has one,
    and without a trailing version suffix: a ["v"] followed by one or more
    digits up to the end. *)
Module SpecId.

Definition is_digit (c : ascii) : bool :=
  (48 <=? nat_of_ascii c)%nat && (nat_of_ascii c <=? 57)%nat.

Fixpoint all_digits (s : string) : bool :=
  match s with
  | EmptyString => true
  | String c s' => is_digit c && all_digits s'
  end.

Definition version_digits (s : string) : bool :=
  match s with
  | EmptyString => false
  | String _ _ => all_digits s
  end.

Fixpoint strip_version (s : string) : string :=
  match s with
  | EmptyString => EmptyString
  | String c s' =>
      if Ascii.eqb c "v" && version_digits s' then EmptyString
      else String c (strip_version s')
  end.

Definition strip_abs (s : string) : string :=
  if String.prefix "abs/" s then String.substring 4 (String.length s - 4) s
  else s.

Definition identifier (uri : string) : string :=
  strip_version (strip_abs (trailing_segment uri)).

End SpecId.

(** *** Generators and logs *)

Section Vocabulary.

Variable Err : Type.

(** The generator that yields [items] and then goes on as [g]. *)
Definition yields (items : list Raw.Result) (g : Gen Err) : Gen Err :=
  fold_right Yield g items.

(** Everything a generator has to offer, were it consumed to its end. *)
Fixpoint gen_items (g : Gen Err) : list Raw.Result :=
  match g with
  | Stop => []
  | Raise _ => []
  | Yield r g' => r :: gen_items g'
  end.

(** The generator ends by [StopIteration], not by raising. *)
Fixpoint ends_normally (g : Gen Err) : Prop :=
  match g with
  | Stop => True
  | Raise _ => False
  | Yield _ g' => ends_normally g'
  end.

End Vocabulary.

(** The searches sent and the results pulled, as the log has them. *)
Fixpoint queries (lg : list Event) : list Search :=
  match lg with
  | [] => []
  | Query s :: lg' => s :: queries lg'
  | Next _ :: lg' => queries lg'
  end.

Fixpoint pulled (lg : list Event) : list Raw.Result :=
  match lg with
  | [] => []
  | Query _ :: lg' => pulled lg'
  | Next r :: lg' => r :: pulled lg'
  end.

(** A result passes the recency test of line 98. *)
Definition recent (cutoff_time : datetime) (r : Raw.Result) : bool :=
  (cutoff_time <=? Raw.published r)%Z.

(** The results that reached the dedup stage, in the order they came. *)
Definition encountered (cutoff_time : datetime) (lg : list Event) : list Raw.Result :=
  filter (recent cutoff_time) (pulled lg).

Definition result_id (r : Raw.Result) : string := extract_id (Raw.entry_id r).

Definition paper_of (r : Raw.Result) : ArxivPaper := make_paper (result_id r) r.

(** Lines 106-120 as one step on the dict. *)
Definition add_if_new (d : Dict.t) (r : Raw.Result) : Dict.t :=
  if Dict.mem (result_id r) d then d
  else Dict.set (result_id r) (paper_of r) d.

(** The first result of [rs] with identifier [i]. *)
Definition first_with_id (i : string) (rs : list Raw.Result) : option Raw.Result :=
  find (fun r => String.eqb (result_id r) i) rs.

Definition has_id (i : string) (p : ArxivPaper) : bool := String.eqb (arxiv_id p) i.

Definition published_at (t : datetime) (p : ArxivPaper) : bool :=
  (published p =? t)%Z.

(** The dict built from the results [rs], taken in order. *)
Definition dedup (rs : list Raw.Result) : Dict.t :=
  fold_left add_if_new rs Dict.empty.

(** Non-increasing keys. *)
Definition sorted_by_desc {A : Type} (key : A -> Z) : list A -> Prop :=
  StronglySorted (fun a b => (key b <= key a)%Z).

(** Newest first. *)
Definition newest_first : list ArxivPaper -> Prop := sorted_by_desc published.

Definition descending : list Raw.Result -> Prop := sorted_by_desc Raw.published.

(** The dict of a frame is the dict of the results its log lets through. *)
Definition coherent (cutoff_time : datetime) (fr : Frame) : Prop :=
  all_papers fr = dedup (encountered cutoff_time (log fr)).

Definition search_for (self : ArxivClient) (topic : string) : Search :=
  {| query := topic;
     search_max_results := max_results self;
     sort_by := SubmittedDate;
     sort_order := Descending |}.

(* ================================================================= *)
(** ** The caller: [main.py] *)

Section Main.

Variable Err : Type.
Variable results : list Event -> Search -> Gen Err.
Variable OverflowError : Err.

(** [fetch_papers_for_topics] (lines 10-17): a fresh [ArxivClient()], no
    override given.  The coroutine holds no [await]; [asyncio.run] hands
    back what it returns or raises. *)
Definition fetch_papers_for_topics (settings : Settings) (now : datetime)
    (topics : list string) : Outcome Err (list ArxivPaper) * list Event :=
  let client := init settings None None None in
  search_papers results OverflowError client now topics.

(** The results at the head of a generator that are not older than the
    cutoff. *)
Fixpoint recent_prefix (cutoff_time : datetime) (g : Gen Err) : list Raw.Result :=
  match g with
  | Yield r g' =>
      if recent cutoff_time r then r :: recent_prefix cutoff_time g' else []
  | _ => []
  end.

(** The generator ends by raising [e]. *)
Fixpoint gen_raises (g : Gen Err) (e : Err) : Prop :=
  match g with
  | Stop => False
  | Raise e' => e' = e
  | Yield _ g' => gen_raises g' e
  end.

End Main.

(* ================================================================= *)
(** ** A concrete collaborator

    Five topics and their result streams, used to run the statements
    below on actual data.  With [now] at 7000 s and a window of one hour
    the cutoff is at 3400 s. *)

Module Demo.

Local Open Scope Z_scope.

Definition raw (entry_id title summary : string) (published : datetime) : Raw.Result :=
  {| Raw.entry_id := entry_id;
     Raw.title := title;
     Raw.authors := [ {| Raw.name := "A. Lovelace" |}; {| Raw.name := "C. Babbage" |} ];
     Raw.summary := summary;
     Raw.pdf_url := "http://arxiv.org/pdf/" ++ extract_id entry_id;
     Raw.published := published;
     Raw.categories := ["cs.AI"; "cs.LG"] |}.

Definition a1 : Raw.Result :=
  raw "http://arxiv.org/abs/2401.00001v2" "Agents"
      ("first line" ++ newline ++ "second line") 5000000000.
Definition a2 : Raw.Result :=
  raw "http://arxiv.org/abs/2401.00002v1" "Reasoning" "one line" 4000000000.
Definition a3 : Raw.Result :=
  raw "http://arxiv.org/abs/2312.00003v1" "Last month" "one line" 100.
Definition a4 : Raw.Result :=
  raw "http://arxiv.org/abs/2312.00004v1" "Older still" "one line" 50.
Definition b1 : Raw.Result :=
  raw "http://arxiv.org/abs/2401.00005" "Planning" "one line" 5000000000.
Definition b2 : Raw.Result :=
  raw "http://arxiv.org/abs/2401.00001v1" "Agents, first version" "one line" 5000000000.
Definition c1 : Raw.Result :=
  raw "http://arxiv.org/abs/2401.00006v1" "Tools" "one line" 6000000000.
Definition e3 : Raw.Result :=
  raw "http://arxiv.org/abs/2312.00003v2" "Last month, revised" "one line" 200.

Definition collaborator (_ : list Event) (s : Search) : Gen string :=
  if String.eqb (query s) "a" then yields [a1; a2; a3; a4] (Raise "not reached")
  else if String.eqb (query s) "b" then yields [b1; b2] Stop
  else if String.eqb (query s) "c" then yields [c1] (Raise "HTTP 503")
  else if String.eqb (query s) "d" then yields [a3] Stop
  else if String.eqb (query s) "e" then yields [e3] Stop
  else Stop.

Definition client : ArxivClient := init default_settings None None (Some 1).

Definition overflow : string := "OverflowError: date value out of range".

Definition now : datetime := 7000000000.

Definition returned (topics : list string) : list ArxivPaper :=
  match fst (search_papers collaborator overflow client now topics) with
  | Normal out => out
  | Raised _ => []
  end.

Definition logged (topics : list string) : list Event :=
  snd (search_papers collaborator overflow client now topics).

Definition frame_after (topics : list string) : Frame :=
  snd (for_topics collaborator client (cutoff client now) topics initial).

(** A client whose window reaches back before the year 1. *)
Definition far_client : ArxivClient :=
  init default_settings None None (Some 20000000).

(** The same streams, as a collaborator that keeps no history. *)
Definition streams (s : Search) : Gen string := collaborator [] s.

Definition hep_th : string := "http://arxiv.org/abs/hep-th/9901001v1".
Definition math_ph : string := "http://arxiv.org/abs/math-ph/9901001v3".

End Demo.

(* ================================================================= *)
(** ** Facts about the string operations *)

Unset Implicit Arguments.

Module PyStrFacts.

Import PyStr.

Lemma append_assoc a b c : (a ++ b) ++ c = a ++ (b ++ c).
Proof. induction a as [|x a IH]; simpl; [reflexivity|now rewrite IH]. Qed.

Lemma split_nonempty sep s : split sep s <> [].
Proof.
  destruct s as [|c s]; simpl; [discriminate|].
  destruct (Ascii.eqb c sep); [discriminate|].
  destruct (split sep s); discriminate.
Qed.

Lemma split_app sep a b :
  split sep (a ++ String sep b) = (split sep a ++ split sep b)%list.
Proof.
  induction a as [|c a IH]; simpl.
  - now rewrite Ascii.eqb_refl.
  - rewrite IH. destruct (Ascii.eqb c sep); [reflexivity|].
    pose proof (split_nonempty sep a) as Hne.
    destruct (split sep a) as [|seg segs]; [contradiction|reflexivity].
Qed.

Lemma split_absent sep s : mem sep s = false -> split sep s = [s].
Proof.
  induction s as [|c s IH]; simpl; [reflexivity|].
  intros H. apply orb_false_iff in H as [Hc Hs].
  rewrite Hc, (IH Hs). reflexivity.
Qed.

Lemma split_segments sep s :
  Forall (fun seg => mem sep seg = false) (split sep s).
Proof.
  induction s as [|c s IH]; simpl.
  - repeat constructor.
  - destruct (Ascii.eqb c sep) eqn:Hc.
    + constructor; [reflexivity|exact IH].
    + destruct (split sep s) as [|seg segs]; [repeat constructor; simpl; now rewrite Hc|].
      inversion IH; subst. constructor; [simpl; now rewrite Hc|assumption].
Qed.

Lemma last_app l1 l2 : l2 <> [] -> last (l1 ++ l2)%list = last l2.
Proof.
  intros Hne. induction l1 as [|x l1 IH]; simpl; [reflexivity|].
  destruct (l1 ++ l2)%list eqn:E; [|exact IH].
  destruct l1; simpl in E; [contradiction|discriminate].
Qed.

Lemma last_In l x : last l = Some x -> In x l.
Proof.
  induction l as [|y l IH]; simpl; [discriminate|].
  destruct l as [|z l]; [intros [= ->]; now left|].
  intros H. right. exact (IH H).
Qed.

Lemma first_split c s : first (split c s) = Some (before_first c s).
Proof.
  induction s as [|d s IH]; simpl; [reflexivity|].
  destruct (Ascii.eqb d c); [reflexivity|].
  destruct (split c s) as [|seg segs]; simpl in *; [discriminate|].
  now injection IH as ->.
Qed.

(** A match of [old] at the head of [s] puts every character of [old]
    into [s]. *)
Lemma prefix_mem old s c :
  String.prefix old s = true -> mem c old = true -> mem c s = true.
Proof.
  revert s. induction old as [|a old IH]; simpl; [discriminate|].
  intros [|b s]; [discriminate|]. simpl.
  destruct (ascii_dec a b) as [->|Hab]; [|discriminate].
  intros Hp Hm. apply orb_true_iff in Hm as [Hm|Hm].
  - now rewrite Hm.
  - rewrite (IH s Hp Hm). apply orb_true_r.
Qed.

(** [replace] leaves alone a string that misses a character of [old]. *)
Lemma replace_absent old new c s :
  mem c old = true -> mem c s = false -> replace old new s = s.
Proof.
  intros Hold. unfold replace.
  induction s as [|d s IH]; [reflexivity|].
  intros Hs. cbn [replace_from].
  destruct (String.prefix old (String d s)) eqn:Hp.
  - rewrite (prefix_mem _ _ c Hp Hold) in Hs. discriminate.
  - simpl in Hs. apply orb_false_iff in Hs as [_ Hs]. now rewrite (IH Hs).
Qed.

(** Replacing the one-character string [newline] by a space is a
    character-wise substitution. *)
Lemma replace_newline s : replace newline " " s = map_chars unbreak s.
Proof.
  unfold replace. induction s as [|c s IH]; [reflexivity|].
  cbn [replace_from map_chars]. unfold newline at 1. cbn [String.prefix String.length].
  unfold unbreak at 1.
  destruct (ascii_dec LF c) as [<-|Hne].
  - rewrite Ascii.eqb_refl. destruct s; simpl; simpl in IH; now rewrite ?IH.
  - destruct (Ascii.eqb c LF) eqn:E.
    + apply Ascii.eqb_eq in E. congruence.
    + now rewrite IH.
Qed.

Example split_slashes :
  split "/" "http://arxiv.org/abs/1234.5678v2"
  = ["http:"; ""; "arxiv.org"; "abs"; "1234.5678v2"].
Proof. reflexivity. Qed.

Example replace_overlap : replace "aa" "b" "aaa" = "ba".
Proof. reflexivity. Qed.

Example replace_abs : replace "abs/" "" "xabs/abs/yabs" = "xyabs".
Proof. reflexivity. Qed.

End PyStrFacts.

(* ================================================================= *)
(** ** Facts about identifier extraction *)

Module IdFacts.

Import PyStrFacts.

Lemma trailing_segment_no_slash uri : PyStr.mem "/" (trailing_segment uri) = false.
Proof.
  unfold trailing_segment.
  destruct (PyStr.last (PyStr.split "/" uri)) as [seg|] eqn:E; [|reflexivity].
  apply last_In in E.
  pose proof (split_segments "/" uri) as H.
  rewrite Forall_forall in H. exact (H seg E).
Qed.

Lemma trailing_segment_app pre seg :
  PyStr.mem "/" seg = false -> trailing_segment (pre ++ String "/" seg) = seg.
Proof.
  intros H. unfold trailing_segment.
  rewrite split_app, (split_absent _ _ H), last_app by discriminate.
  reflexivity.
Qed.

(** The code's identifier is the trailing segment cut at its first ["v"]:
    the segment holds no ["/"], so removing ["abs/"] changes nothing. *)
Lemma extract_id_cut uri :
  extract_id uri = before_first "v" (trailing_segment uri).
Proof.
  pose proof (trailing_segment_no_slash uri) as Hs.
  unfold extract_id, extract_id_opt, trailing_segment in *.
  destruct (PyStr.last (PyStr.split "/" uri)) as [seg|]; [|reflexivity].
  rewrite (replace_absent "abs/" "" "/" seg eq_refl Hs), first_split.
  reflexivity.
Qed.

Lemma strip_abs_segment seg : PyStr.mem "/" seg = false -> SpecId.strip_abs seg = seg.
Proof.
  intros H. unfold SpecId.strip_abs.
  destruct (String.prefix "abs/" seg) eqn:Hp; [|reflexivity].
  rewrite (prefix_mem _ _ "/" Hp eq_refl) in H. discriminate.
Qed.

Lemma before_first_strip_version s :
  PyStr.mem "v" (SpecId.strip_version s) = false ->
  before_first "v" s = SpecId.strip_version s.
Proof.
  induction s as [|c s IH]; simpl; [reflexivity|].
  destruct (Ascii.eqb c "v") eqn:Hc; simpl.
  - destruct (SpecId.version_digits s); [reflexivity|].
    simpl. rewrite Hc. discriminate.
  - rewrite Hc. simpl. intros H. now rewrite (IH H).
Qed.

End IdFacts.

(* ================================================================= *)
(** ** Facts about the stable descending sort *)

Section SortedFacts.

Variable A : Type.
Variable key : A -> Z.

Local Open Scope Z_scope.


Lemma insert_desc_perm x l : Permutation (insert_desc key x l) (x :: l).
Proof.
  induction l as [|y l IH]; simpl; [reflexivity|].
  destruct (key x <? key y); [|reflexivity].
  rewrite IH. apply perm_swap.
Qed.

Lemma sorted_desc_perm l : Permutation (sorted_desc key l) l.
Proof.
  induction l as [|x l IH]; simpl; [constructor|].
  rewrite insert_desc_perm. now constructor.
Qed.

Lemma insert_desc_sorted x l :
  sorted_by_desc key l -> sorted_by_desc key (insert_desc key x l).
Proof.
  unfold sorted_by_desc. induction l as [|y l IH]; simpl; intros Hl.
  - repeat constructor.
  - inversion Hl as [|? ? Hs Hall]; subst.
    destruct (key x <? key y) eqn:E.
    + apply Z.ltb_lt in E. constructor; [now apply IH|].
      apply (Permutation_Forall (Permutation_sym (insert_desc_perm x l))).
      constructor; [lia|assumption].
    + apply Z.ltb_ge in E. constructor; [assumption|].
      constructor; [assumption|].
      eapply Forall_impl; [|exact Hall]. simpl. intros; lia.
Qed.

Lemma sorted_desc_sorted l : sorted_by_desc key (sorted_desc key l).
Proof.
  induction l as [|x l IH]; simpl; [constructor|].
  now apply insert_desc_sorted.
Qed.

(** Stability: among the elements with one key, the input order stays. *)
Lemma insert_desc_stable t x l :
  filter (fun a => key a =? t) (insert_desc key x l)
  = filter (fun a => key a =? t) (x :: l).
Proof.
  induction l as [|y l IH]; [reflexivity|].
  cbn [insert_desc]. destruct (key x <? key y) eqn:E; [|reflexivity].
  apply Z.ltb_lt in E. cbn [filter] in *. rewrite IH.
  destruct (key x =? t) eqn:Ex, (key y =? t) eqn:Ey; try reflexivity.
  apply Z.eqb_eq in Ex, Ey. lia.
Qed.

Lemma sorted_desc_stable t l :
  filter (fun a => key a =? t) (sorted_desc key l)
  = filter (fun a => key a =? t) l.
Proof.
  induction l as [|x l IH]; [reflexivity|].
  cbn [sorted_desc]. rewrite insert_desc_stable. cbn [filter]. now rewrite IH.
Qed.

End SortedFacts.

(* ================================================================= *)
(** ** Facts about the dict *)

Module DictFacts.

Lemma mem_keys k d : Dict.mem k d = true <-> In k (Dict.keys d).
Proof.
  induction d as [|[k' v] d IH]; simpl; [intuition discriminate|].
  rewrite orb_true_iff, String.eqb_eq, IH. reflexivity.
Qed.

Lemma set_fresh k v d : Dict.mem k d = false -> Dict.set k v d = (d ++ [(k, v)])%list.
Proof.
  induction d as [|[k' v'] d IH]; simpl; [reflexivity|].
  intros H. apply orb_false_iff in H as [Hk Hd].
  now rewrite Hk, (IH Hd).
Qed.

Lemma add_if_new_eq d r :
  add_if_new d r =
  if Dict.mem (result_id r) d then d else (d ++ [(result_id r, paper_of r)])%list.
Proof.
  unfold add_if_new. destruct (Dict.mem (result_id r) d) eqn:E; [reflexivity|].
  now apply set_fresh.
Qed.

End DictFacts.

Module DedupFacts.

Import DictFacts.

Local Open Scope list_scope.

Lemma mem_snoc k d k' v :
  Dict.mem k (d ++ [(k', v)]) = Dict.mem k d || String.eqb k' k.
Proof.
  induction d as [|[k0 v0] d IH]; simpl; [now rewrite orb_false_r|].
  now rewrite IH, orb_assoc.
Qed.

Lemma dedup_snoc rs r : dedup (rs ++ [r]) = add_if_new (dedup rs) r.
Proof. unfold dedup. now rewrite fold_left_app. Qed.

Lemma first_with_id_app i rs1 rs2 :
  first_with_id i (rs1 ++ rs2) =
  match first_with_id i rs1 with
  | Some r => Some r
  | None => first_with_id i rs2
  end.
Proof.
  unfold first_with_id. induction rs1 as [|r rs1 IH]; simpl; [reflexivity|].
  destruct (String.eqb (result_id r) i); [reflexivity|exact IH].
Qed.

Lemma first_with_id_In i rs r : first_with_id i rs = Some r -> In r rs /\ result_id r = i.
Proof.
  unfold first_with_id. intros H. apply find_some in H as [Hin He].
  apply String.eqb_eq in He. now split.
Qed.

Lemma first_with_id_None i rs r : first_with_id i rs = None -> In r rs -> result_id r <> i.
Proof.
  unfold first_with_id. intros H Hin E.
  apply (find_none _ _ H) in Hin. apply String.eqb_neq in Hin. contradiction.
Qed.

(** Every entry of the dict was built from one of the results. *)
Lemma dedup_entries rs :
  Forall (fun kv => exists r, In r rs /\ kv = (result_id r, paper_of r)) (dedup rs).
Proof.
  induction rs as [|r rs IH] using rev_ind; [constructor|].
  rewrite dedup_snoc, add_if_new_eq.
  assert (Forall (fun kv => exists r0, In r0 (rs ++ [r]) /\ kv = (result_id r0, paper_of r0))
            (dedup rs)) as IH'.
  { eapply Forall_impl; [|exact IH]. intros kv (r0 & Hin & ->).
    exists r0. split; [apply in_or_app; now left|reflexivity]. }
  destruct (Dict.mem (result_id r) (dedup rs)); [exact IH'|].
  apply Forall_app. split; [exact IH'|].
  constructor; [|constructor].
  exists r. split; [apply in_or_app; right; now left|reflexivity].
Qed.

(** A key is in the dict exactly when some result has it as identifier. *)
Lemma dedup_mem rs i :
  Dict.mem i (dedup rs) = true <-> exists r, In r rs /\ result_id r = i.
Proof.
  induction rs as [|r rs IH] using rev_ind.
  - simpl. split; [discriminate|intros (r & [] & _)].
  - rewrite dedup_snoc, add_if_new_eq.
    destruct (Dict.mem (result_id r) (dedup rs)) eqn:E.
    + rewrite IH. split.
      * intros (r0 & Hin & Hid). exists r0. split; [apply in_or_app; now left|exact Hid].
      * intros (r0 & Hin & Hid). apply in_app_or in Hin as [Hin|[<-|[]]].
        -- now exists r0.
        -- subst i. now apply IH.
    + rewrite mem_snoc, orb_true_iff, IH, String.eqb_eq. split.
      * intros [(r0 & Hin & Hid)|Hid].
        -- exists r0. split; [apply in_or_app; now left|exact Hid].
        -- exists r. split; [apply in_or_app; right; now left|exact Hid].
      * intros (r0 & Hin & Hid). apply in_app_or in Hin as [Hin|[<-|[]]].
        -- left. now exists r0.
        -- now right.
Qed.

Lemma dedup_NoDup rs : NoDup (Dict.keys (dedup rs)).
Proof.
  induction rs as [|r rs IH] using rev_ind; [constructor|].
  rewrite dedup_snoc, add_if_new_eq.
  destruct (Dict.mem (result_id r) (dedup rs)) eqn:E; [exact IH|].
  unfold Dict.keys. rewrite map_app. simpl.
  apply (Permutation_NoDup (Permutation_cons_append _ _)).
  constructor; [|exact IH].
  intros Hin. apply mem_keys in Hin. congruence.
Qed.

(** The dict holds, for each identifier, the paper of the first result
    that has it, and nothing else. *)
Lemma dedup_first rs i :
  filter (has_id i) (Dict.values (dedup rs)) =
  match first_with_id i rs with
  | Some r => [paper_of r]
  | None => []
  end.
Proof.
  induction rs as [|r rs IH] using rev_ind; [reflexivity|].
  rewrite dedup_snoc, add_if_new_eq, first_with_id_app.
  destruct (Dict.mem (result_id r) (dedup rs)) eqn:E.
  - rewrite IH. destruct (first_with_id i rs) as [r0|] eqn:F; [reflexivity|].
    unfold first_with_id at 1. simpl.
    destruct (String.eqb (result_id r) i) eqn:Hi; [|reflexivity].
    apply String.eqb_eq in Hi. apply dedup_mem in E as (r1 & Hin & Hid).
    exfalso. apply (first_with_id_None _ _ _ F Hin). congruence.
  - unfold Dict.values in *. rewrite map_app, filter_app, IH. simpl.
    unfold has_id at 1. unfold paper_of at 1. simpl.
    destruct (first_with_id i rs) as [r0|] eqn:F.
    + destruct (String.eqb (result_id r) i) eqn:Hi; [|reflexivity].
      apply String.eqb_eq in Hi. apply first_with_id_In in F as [Hin Hid].
      assert (Dict.mem (result_id r) (dedup rs) = true) as T
        by (apply dedup_mem; exists r0; split; congruence).
      congruence.
    + unfold first_with_id. simpl.
      now destruct (String.eqb (result_id r) i).
Qed.

Lemma dedup_values rs p :
  In p (Dict.values (dedup rs)) -> exists r, In r rs /\ p = paper_of r.
Proof.
  unfold Dict.values. rewrite in_map_iff. intros (kv & <- & Hin).
  pose proof (dedup_entries rs) as H. rewrite Forall_forall in H.
  destruct (H kv Hin) as (r & Hr & ->). now exists r.
Qed.

Lemma dedup_ids rs : map arxiv_id (Dict.values (dedup rs)) = Dict.keys (dedup rs).
Proof.
  unfold Dict.values, Dict.keys. rewrite map_map. apply map_ext_in.
  intros kv Hin. pose proof (dedup_entries rs) as H. rewrite Forall_forall in H.
  now destruct (H kv Hin) as (r & _ & ->).
Qed.

End DedupFacts.

(* ================================================================= *)
(** ** Facts about the loops *)

Section LoopFacts.

Local Open Scope list_scope.

Variable Err : Type.
Variable results : list Event -> Search -> Gen Err.
Variable self : ArxivClient.
Variable c : datetime.

Lemma ltb_recent r : (Raw.published r <? c)%Z = negb (recent c r).
Proof. unfold recent. apply Z.ltb_antisym. Qed.

Lemma pulled_app l1 l2 : pulled (l1 ++ l2) = pulled l1 ++ pulled l2.
Proof.
  induction l1 as [|[s|r] l1 IH]; simpl; [reflexivity|exact IH|now rewrite IH].
Qed.

Lemma queries_app l1 l2 : queries (l1 ++ l2) = queries l1 ++ queries l2.
Proof.
  induction l1 as [|[s|r] l1 IH]; simpl; [reflexivity|now rewrite IH|exact IH].
Qed.

Lemma pulled_Next rs : pulled (map Next rs) = rs.
Proof. induction rs as [|r rs IH]; simpl; [reflexivity|now rewrite IH]. Qed.

Lemma queries_Next rs : queries (map Next rs) = [].
Proof. induction rs as [|r rs IH]; simpl; [reflexivity|exact IH]. Qed.

Lemma encountered_app l1 l2 :
  encountered c (l1 ++ l2) = encountered c l1 ++ encountered c l2.
Proof. unfold encountered. now rewrite pulled_app, filter_app. Qed.

Lemma encountered_Next r :
  encountered c [Next r] = if recent c r then [r] else [].
Proof. reflexivity. Qed.

Lemma encountered_Query q : encountered c [Query q] = [].
Proof. reflexivity. Qed.

(** One more item, old: the loop breaks. *)
Lemma consume_old r (g : Gen Err) fr :
  recent c r = false ->
  consume c (Yield r g) fr =
  (Normal tt, {| all_papers := all_papers fr; log := log fr ++ [Next r] |}).
Proof.
  intros H. cbn [consume]. unfold bind, emit. now rewrite ltb_recent, H.
Qed.

(** One more item, recent: it goes through the dedup step and the loop
    goes on. *)
Lemma consume_step r (g : Gen Err) fr :
  recent c r = true ->
  consume c (Yield r g) fr =
  consume c g {| all_papers := add_if_new (all_papers fr) r;
                 log := log fr ++ [Next r] |}.
Proof.
  intros H. cbn [consume]. unfold bind, emit, get_papers, set_paper.
  rewrite ltb_recent, H. cbn [negb all_papers log].
  unfold add_if_new, result_id, paper_of.
  now destruct (Dict.mem (extract_id (Raw.entry_id r)) (all_papers fr)).
Qed.

Lemma consume_recent items (g : Gen Err) fr :
  Forall (fun r => recent c r = true) items ->
  consume c (yields items g) fr =
  consume c g {| all_papers := fold_left add_if_new items (all_papers fr);
                 log := log fr ++ map Next items |}.
Proof.
  intros H. revert fr. induction H as [|r items Hr _ IH]; intros fr.
  - simpl. rewrite app_nil_r. now destruct fr.
  - cbn [yields fold_right]. fold (yields items g).
    rewrite (consume_step _ _ _ Hr), IH. cbn [all_papers log fold_left map].
    now rewrite <- app_assoc.
Qed.

(** The dict stays the dict of what the log lets through. *)
Lemma consume_coherent (g : Gen Err) : forall fr o fr',
  consume c g fr = (o, fr') -> coherent c fr -> coherent c fr'.
Proof.
  induction g as [|e|r g IH]; intros fr o fr' Hrun Hco.
  - now injection Hrun as _ <-.
  - now injection Hrun as _ <-.
  - destruct (recent c r) eqn:Hr.
    + rewrite (consume_step _ _ _ Hr) in Hrun. apply (IH _ _ _ Hrun).
      unfold coherent in *. cbn [all_papers log].
      rewrite encountered_app, encountered_Next, Hr, Hco.
      symmetry. apply DedupFacts.dedup_snoc.
    + rewrite (consume_old _ _ _ Hr) in Hrun. injection Hrun as _ <-.
      unfold coherent in *. cbn [all_papers log].
      now rewrite encountered_app, encountered_Next, Hr, app_nil_r.
Qed.

Lemma search_topic_eq topic fr :
  search_topic results self c topic fr =
  consume c (results (log fr) (search_for self topic))
    {| all_papers := all_papers fr;
       log := log fr ++ [Query (search_for self topic)] |}.
Proof. reflexivity. Qed.

Lemma search_topic_coherent topic fr o fr' :
  search_topic results self c topic fr = (o, fr') ->
  coherent c fr -> coherent c fr'.
Proof.
  rewrite search_topic_eq. intros Hrun Hco.
  apply (consume_coherent _ _ _ _ Hrun).
  unfold coherent in *. cbn [all_papers log].
  now rewrite encountered_app, encountered_Query, app_nil_r.
Qed.

Lemma for_topics_coherent topics : forall fr o fr',
  for_topics results self c topics fr = (o, fr') ->
  coherent c fr -> coherent c fr'.
Proof.
  induction topics as [|t topics IH]; intros fr o fr' Hrun Hco.
  - now injection Hrun as _ <-.
  - cbn [for_topics] in Hrun. unfold bind in Hrun.
    destruct (search_topic results self c t fr) as [[[]|e] fr1] eqn:Ht.
    + apply (IH _ _ _ Hrun). exact (search_topic_coherent _ _ _ _ Ht Hco).
    + injection Hrun as _ <-. exact (search_topic_coherent _ _ _ _ Ht Hco).
Qed.

(** With generators that do not raise, the loops return normally. *)
Lemma consume_normal (g : Gen Err) : forall fr,
  ends_normally g -> exists fr', consume c g fr = (Normal tt, fr').
Proof.
  induction g as [|e|r g IH]; intros fr Hg.
  - now exists fr.
  - destruct Hg.
  - destruct (recent c r) eqn:Hr.
    + rewrite (consume_step _ _ _ Hr). now apply IH.
    + rewrite (consume_old _ _ _ Hr). eauto.
Qed.

Lemma for_topics_normal topics : forall fr,
  (forall lg s, ends_normally (results lg s)) ->
  exists fr', for_topics results self c topics fr = (Normal tt, fr').
Proof.
  induction topics as [|t topics IH]; intros fr Hres.
  - now exists fr.
  - cbn [for_topics]. unfold bind. rewrite search_topic_eq.
    destruct (consume_normal (results (log fr) (search_for self t))
                {| all_papers := all_papers fr;
                   log := log fr ++ [Query (search_for self t)] |} (Hres _ _))
      as [fr1 ->].
    now apply IH.
Qed.

(** The loop over [pre ++ post] is the loop over [pre] followed by the
    loop over [post], unless the first raises. *)
Lemma for_topics_app pre post fr :
  for_topics results self c (pre ++ post) fr =
  match for_topics results self c pre fr with
  | (Normal _, fr1) => for_topics results self c post fr1
  | (Raised e, fr1) => (Raised e, fr1)
  end.
Proof.
  revert fr. induction pre as [|t pre IH]; intros fr; [reflexivity|].
  cbn [app for_topics]. unfold bind.
  destruct (search_topic results self c t fr) as [[[]|e] fr1]; [apply IH|reflexivity].
Qed.

(** A loop only adds to the log. *)
Lemma consume_log (g : Gen Err) : forall fr o fr',
  consume c g fr = (o, fr') -> exists evs, log fr' = log fr ++ evs.
Proof.
  induction g as [|e|r g IH]; intros fr o fr' Hrun.
  - injection Hrun as _ <-. exists []. now rewrite app_nil_r.
  - injection Hrun as _ <-. exists []. now rewrite app_nil_r.
  - destruct (recent c r) eqn:Hr.
    + rewrite (consume_step _ _ _ Hr) in Hrun.
      destruct (IH _ _ _ Hrun) as [evs Hevs]. cbn [log] in Hevs.
      exists (Next r :: evs). now rewrite Hevs, <- app_assoc.
    + rewrite (consume_old _ _ _ Hr) in Hrun. injection Hrun as _ <-.
      now exists [Next r].
Qed.

Lemma for_topics_log topics : forall fr o fr',
  for_topics results self c topics fr = (o, fr') ->
  exists evs, log fr' = log fr ++ evs.
Proof.
  induction topics as [|t topics IH]; intros fr o fr' Hrun.
  - injection Hrun as _ <-. exists []. now rewrite app_nil_r.
  - cbn [for_topics] in Hrun. unfold bind in Hrun.
    destruct (search_topic results self c t fr) as [[[]|e] fr1] eqn:Ht;
      rewrite search_topic_eq in Ht;
      destruct (consume_log _ _ _ _ Ht) as [evs1 H1]; cbn [log] in H1.
    + destruct (IH _ _ _ Hrun) as [evs2 H2].
      exists (Query (search_for self t) :: evs1 ++ evs2).
      rewrite H2, H1, <- !app_assoc. reflexivity.
    + injection Hrun as _ <-.
      exists (Query (search_for self t) :: evs1).
      rewrite H1, <- app_assoc. reflexivity.
Qed.

End LoopFacts.

Section SearchFacts.

Local Open Scope list_scope.

Variable Err : Type.
Variable results : list Event -> Search -> Gen Err.
Variable OverflowError : Err.
Variable self : ArxivClient.
Variable now : datetime.

(** [search_papers] when line 80 succeeds, in terms of its loop. *)
Lemma search_papers_eq topics :
  cutoff_ok self now = true ->
  search_papers results OverflowError self now topics =
  match for_topics results self (cutoff self now) topics initial with
  | (Normal _, fr) =>
      (Normal (sorted_desc published (Dict.values (all_papers fr))), log fr)
  | (Raised e, fr) => (Raised e, log fr)
  end.
Proof.
  intros Hok. unfold search_papers, cutoff_time_of, bind, get_papers, ret.
  rewrite Hok.
  now destruct (for_topics results self (cutoff self now) topics initial) as [[[]|e] fr].
Qed.

(** [search_papers] when line 80 fails. *)
Lemma search_papers_overflow topics :
  cutoff_ok self now = false ->
  search_papers results OverflowError self now topics = (Raised OverflowError, []).
Proof.
  intros Hok. unfold search_papers, cutoff_time_of, bind, raise. now rewrite Hok.
Qed.

(** [search_papers] returns a sequence whenever line 80 succeeds and no
    generator raises. *)
Lemma search_papers_returns topics :
  cutoff_ok self now = true ->
  (forall lg s, ends_normally (results lg s)) ->
  exists out lg, search_papers results OverflowError self now topics = (Normal out, lg).
Proof.
  intros Hok Hres. rewrite (search_papers_eq _ Hok).
  destruct (for_topics_normal _ results self (cutoff self now) topics initial Hres)
    as [fr ->].
  eauto.
Qed.

(** A normal return means that line 80 succeeded. *)
Lemma search_papers_normal_ok topics out lg :
  search_papers results OverflowError self now topics = (Normal out, lg) ->
  cutoff_ok self now = true.
Proof.
  destruct (cutoff_ok self now) eqn:Hok; [reflexivity|].
  rewrite (search_papers_overflow _ Hok). discriminate.
Qed.

(** What a normal return of [search_papers] amounts to. *)
Lemma search_papers_normal topics out lg :
  search_papers results OverflowError self now topics = (Normal out, lg) ->
  exists fr,
    for_topics results self (cutoff self now) topics initial = (Normal tt, fr)
    /\ lg = log fr
    /\ out = sorted_desc published (Dict.values (all_papers fr))
    /\ all_papers fr = dedup (encountered (cutoff self now) lg).
Proof.
  intros H. pose proof (search_papers_normal_ok _ _ _ H) as Hok.
  rewrite (search_papers_eq _ Hok) in H.
  destruct (for_topics results self (cutoff self now) topics initial)
    as [[[]|e] fr] eqn:Hrun; [|discriminate].
  injection H as <- <-. exists fr. repeat split.
  apply (for_topics_coherent _ _ _ _ _ _ _ _ Hrun). reflexivity.
Qed.

End SearchFacts.

(* ================================================================= *)
(** ** The constructor *)

(** C10.  A falsy override ([0] for [max_results] or [hours_back], [0.0]
    for [delay_seconds]) is treated like an omitted one: the attribute
    falls back to the value of the settings, which is 30, 3.0 and 24 when
    the settings are the declared defaults. *)
Theorem init_falsy_override_is_default :
  forall (settings : Settings) (m h : option Z) (d : option float),
    init settings (Some 0%Z) d h = init settings None d h
    /\ init settings m (Some 0%float) h = init settings m None h
    /\ init settings m d (Some 0%Z) = init settings m d None
    /\ init default_settings (Some 0%Z) (Some 0%float) (Some 0%Z)
       = {| max_results := 30; delay_seconds := 3%float; hours_back := 24 |}.
Proof.
  intros settings m h d. repeat split.
Qed.

(* ================================================================= *)
(** ** The identifier *)

Local Open Scope string_scope.

(** C5, as stated, fails: on a trailing segment with a ["v"] before its
    version suffix the code keeps only what precedes the first ["v"]. *)
Lemma extract_id_cuts_at_first_v :
  extract_id "http://arxiv.org/abs/survey2v3" = "sur"
  /\ SpecId.identifier "http://arxiv.org/abs/survey2v3" = "survey2"
  /\ extract_id "http://arxiv.org/abs/survey2v3"
     <> SpecId.identifier "http://arxiv.org/abs/survey2v3".
Proof.
  repeat split. vm_compute. discriminate.
Qed.

(** C5, amended.  The identifier is the trailing path segment of the URI
    cut at its first ["v"]; the removal of ["abs/"] never changes it, the
    segment holding no ["/"].  Whenever the segment, once its version
    suffix is stripped, holds no ["v"], this is the identifier the
    specification describes; and URIs ending in [/1234.5678v2],
    [/1234.5678] and [/abs/1234.5678v1] all give [1234.5678]. *)
Theorem extract_id_normalizes :
  (forall uri, extract_id uri = before_first "v" (trailing_segment uri))
  /\ (forall uri,
        PyStr.mem "v" (SpecId.identifier uri) = false ->
        extract_id uri = SpecId.identifier uri)
  /\ (forall pre,
        extract_id (pre ++ "/1234.5678v2") = "1234.5678"
        /\ extract_id (pre ++ "/1234.5678") = "1234.5678"
        /\ extract_id (pre ++ "/abs/1234.5678v1") = "1234.5678").
Proof.
  split; [exact IdFacts.extract_id_cut|]. split.
  - intros uri. unfold SpecId.identifier.
    rewrite (IdFacts.strip_abs_segment _ (IdFacts.trailing_segment_no_slash uri)).
    intros H. rewrite IdFacts.extract_id_cut.
    now apply IdFacts.before_first_strip_version.
  - intros pre. rewrite !IdFacts.extract_id_cut. repeat split.
    + now rewrite (IdFacts.trailing_segment_app pre "1234.5678v2" eq_refl).
    + now rewrite (IdFacts.trailing_segment_app pre "1234.5678" eq_refl).
    + change (pre ++ "/abs/1234.5678v1") with (pre ++ ("/abs" ++ "/1234.5678v1")).
      rewrite <- PyStrFacts.append_assoc.
      now rewrite (IdFacts.trailing_segment_app (pre ++ "/abs") "1234.5678v1" eq_refl).
Qed.

Lemma extract_id_normalizes_witness :
  PyStr.mem "v" (SpecId.identifier "http://arxiv.org/abs/2401.00001v2") = false
  /\ extract_id "http://arxiv.org/abs/2401.00001v2"
     = SpecId.identifier "http://arxiv.org/abs/2401.00001v2".
Proof.
  split; [reflexivity|].
  apply (proj1 (proj2 extract_id_normalizes)). reflexivity.
Defined.

(* ================================================================= *)
(** ** What [search_papers] returns *)

Section Returned.

Local Open Scope list_scope.

Variable Err : Type.
Variable results : list Event -> Search -> Gen Err.
Variable OverflowError : Err.
Variable self : ArxivClient.
Variable now : datetime.

(** The returned list rearranges the values of the dict built from the
    results that passed the recency test. *)
Lemma returned_perm topics out lg :
  search_papers results OverflowError self now topics = (Normal out, lg) ->
  Permutation out (Dict.values (dedup (encountered (cutoff self now) lg))).
Proof.
  intros H. apply search_papers_normal in H as (fr & _ & _ & -> & ->).
  apply sorted_desc_perm.
Qed.

Lemma returned_from topics out lg p :
  search_papers results OverflowError self now topics = (Normal out, lg) ->
  In p out ->
  exists r, In r (encountered (cutoff self now) lg) /\ p = paper_of r.
Proof.
  intros H Hin. apply DedupFacts.dedup_values.
  exact (Permutation_in _ (returned_perm _ _ _ H) Hin).
Qed.

Lemma returned_has_id topics out lg r :
  search_papers results OverflowError self now topics = (Normal out, lg) ->
  In r (encountered (cutoff self now) lg) ->
  exists p, In p out /\ arxiv_id p = result_id r.
Proof.
  intros H Hin.
  assert (In (result_id r) (map arxiv_id out)) as Hid.
  { apply (Permutation_in _ (Permutation_sym (Permutation_map arxiv_id (returned_perm _ _ _ H)))).
    rewrite DedupFacts.dedup_ids. apply DictFacts.mem_keys.
    apply DedupFacts.dedup_mem. now exists r. }
  apply in_map_iff in Hid as (p & Hp & Hin'). now exists p.
Qed.

Lemma first_with_id_found i rs r :
  In r rs -> result_id r = i -> exists r0, first_with_id i rs = Some r0.
Proof.
  intros Hin Hid. destruct (first_with_id i rs) as [r0|] eqn:F; [now exists r0|].
  destruct (DedupFacts.first_with_id_None _ _ _ F Hin Hid).
Qed.

Lemma returned_by_id topics out lg i :
  search_papers results OverflowError self now topics = (Normal out, lg) ->
  filter (has_id i) out =
  match first_with_id i (encountered (cutoff self now) lg) with
  | Some r => [paper_of r]
  | None => []
  end.
Proof.
  intros H.
  assert (Permutation (filter (has_id i) out)
            (filter (has_id i)
               (Dict.values (dedup (encountered (cutoff self now) lg))))) as P.
  { pose proof (returned_perm _ _ _ H) as Q. clear H.
    induction Q as [|a l l' _ IH|a b l|l1 l2 l3 _ IH1 _ IH2]; simpl.
    - constructor.
    - destruct (has_id i a); [now constructor|exact IH].
    - destruct (has_id i a), (has_id i b); try reflexivity. apply perm_swap.
    - now transitivity (filter (has_id i) l2). }
  rewrite DedupFacts.dedup_first in P.
  destruct (first_with_id i (encountered (cutoff self now) lg)) as [r|].
  - apply Permutation_sym, Permutation_length_1_inv in P. exact P.
  - apply Permutation_sym, Permutation_nil in P. exact P.
Qed.

(** C1.  No two records of the returned sequence share an [arxiv_id]. *)
Theorem search_papers_unique_ids topics out lg :
  search_papers results OverflowError self now topics = (Normal out, lg) ->
  NoDup (map arxiv_id out).
Proof.
  intros H.
  apply (Permutation_NoDup (Permutation_sym (Permutation_map arxiv_id (returned_perm _ _ _ H)))).
  rewrite DedupFacts.dedup_ids. apply DedupFacts.dedup_NoDup.
Qed.

(** C2.  Every returned record was published at or after the cutoff, which
    is [now] minus [hours_back] hours. *)
Theorem search_papers_recent topics out lg :
  search_papers results OverflowError self now topics = (Normal out, lg) ->
  Forall (fun p => (now - timedelta_hours (hours_back self) <= published p)%Z) out.
Proof.
  intros H. apply Forall_forall. intros p Hin.
  destruct (returned_from _ _ _ _ H Hin) as (r & Hr & ->).
  unfold encountered in Hr. apply filter_In in Hr as [_ Hr].
  unfold recent, cutoff in Hr. apply Z.leb_le in Hr. exact Hr.
Qed.

(** C3.  The returned sequence is in non-increasing order of [published],
    and records with equal [published] stand in the order the dict
    [all_papers] holds them, which is the order of their insertion. *)
Theorem search_papers_sorted_stable topics out lg :
  search_papers results OverflowError self now topics = (Normal out, lg) ->
  exists fr,
    for_topics results self (cutoff self now) topics initial = (Normal tt, fr)
    /\ newest_first out
    /\ Permutation out (Dict.values (all_papers fr))
    /\ forall t, filter (published_at t) out
                 = filter (published_at t) (Dict.values (all_papers fr)).
Proof.
  intros H. apply search_papers_normal in H as (fr & Hrun & _ & -> & _).
  exists fr. split; [exact Hrun|]. split; [apply sorted_desc_sorted|].
  split; [apply sorted_desc_perm|].
  intros t. apply (sorted_desc_stable _ published t).
Qed.

(** C9.  Every returned record was built from a result the loop let
    through, the first one with its identifier: its abstract is that
    result's summary with each line feed replaced by one space, and its
    title, authors (each as the string [str] gives), PDF URL, publication
    time and categories are that result's. *)
Theorem search_papers_fields topics out lg p :
  search_papers results OverflowError self now topics = (Normal out, lg) ->
  In p out ->
  exists r,
    first_with_id (arxiv_id p) (encountered (cutoff self now) lg) = Some r
    /\ arxiv_id p = extract_id (Raw.entry_id r)
    /\ abstract p = map_chars unbreak (Raw.summary r)
    /\ title p = Raw.title r
    /\ authors p = map Raw.str (Raw.authors r)
    /\ pdf_url p = Raw.pdf_url r
    /\ published p = Raw.published r
    /\ categories p = Raw.categories r.
Proof.
  intros H Hin.
  pose proof (Permutation_in _ (returned_perm _ _ _ H) Hin) as Hd.
  assert (In p (filter (has_id (arxiv_id p))
                  (Dict.values (dedup (encountered (cutoff self now) lg))))) as Hf.
  { apply filter_In. split; [exact Hd|]. unfold has_id. apply String.eqb_refl. }
  rewrite DedupFacts.dedup_first in Hf.
  destruct (first_with_id (arxiv_id p) (encountered (cutoff self now) lg)) as [r|];
    [|contradiction].
  destruct Hf as [<-|[]]. exists r. cbn.
  rewrite PyStrFacts.replace_newline. repeat split.
Qed.

End Returned.

(* ================================================================= *)
(** ** Cutoff, dedup across topics, failures *)

Section ListFacts.

Local Open Scope list_scope.

Variable A : Type.
Variable f : A -> bool.

Lemma filter_all l : Forall (fun a => f a = true) l -> filter f l = l.
Proof.
  induction 1 as [|a l Ha _ IH]; simpl; [reflexivity|]. now rewrite Ha, IH.
Qed.

Lemma filter_none l : Forall (fun a => f a = false) l -> filter f l = [].
Proof.
  induction 1 as [|a l Ha _ IH]; simpl; [reflexivity|]. now rewrite Ha.
Qed.


End ListFacts.

Section GenFacts.

Local Open Scope list_scope.

Variable Err : Type.

Lemma yields_app items1 items2 (g : Gen Err) :
  yields (items1 ++ items2) g = yields items1 (yields items2 g).
Proof. unfold yields. apply fold_right_app. Qed.

(** A generator is its items followed by how it ends. *)
Lemma gen_decompose (g : Gen Err) :
  exists tail, g = yields (gen_items g) tail /\ gen_items tail = [].
Proof.
  induction g as [|e|r g (tail & Hg & Ht)].
  - now exists Stop.
  - now exists (Raise e).
  - exists tail. split; [|exact Ht]. simpl. now rewrite <- Hg.
Qed.

(** In a descending stream the recent items come first. *)
Lemma descending_split c l :
  descending l ->
  exists pre rest,
    l = pre ++ rest
    /\ Forall (fun r => recent c r = true) pre
    /\ Forall (fun r => recent c r = false) rest.
Proof.
  induction 1 as [|r l _ (pre & rest & -> & Hpre & Hrest) Hall].
  - exists [], []. repeat split; constructor.
  - destruct (recent c r) eqn:Hr.
    + exists (r :: pre), rest. repeat split; [now constructor|exact Hrest].
    + exists [], (r :: pre ++ rest). repeat split; [constructor|].
      constructor; [exact Hr|].
      eapply Forall_impl; [|exact Hall]. simpl. intros s Hs.
      unfold recent in *. apply Z.leb_gt in Hr. apply Z.leb_gt. lia.
Qed.

End GenFacts.

Section Topics.

Local Open Scope list_scope.

Variable Err : Type.
Variable results : list Event -> Search -> Gen Err.
Variable OverflowError : Err.
Variable self : ArxivClient.
Variable now : datetime.

Lemma consume_queries c (g : Gen Err) : forall fr o fr',
  consume c g fr = (o, fr') -> queries (log fr') = queries (log fr).
Proof.
  induction g as [|e|r g IH]; intros fr o fr' Hrun.
  - now injection Hrun as _ <-.
  - now injection Hrun as _ <-.
  - destruct (recent c r) eqn:Hr.
    + rewrite (consume_step _ _ _ _ _ Hr) in Hrun.
      rewrite (IH _ _ _ Hrun). cbn [log]. rewrite queries_app. apply app_nil_r.
    + rewrite (consume_old _ _ _ _ _ Hr) in Hrun. injection Hrun as _ <-.
      cbn [log]. rewrite queries_app. apply app_nil_r.
Qed.

(** One search is sent per topic processed, in the order of the topics. *)
Lemma for_topics_queries c topics : forall fr fr',
  for_topics results self c topics fr = (Normal tt, fr') ->
  queries (log fr') = queries (log fr) ++ map (search_for self) topics.
Proof.
  induction topics as [|t topics IH]; intros fr fr' Hrun.
  - injection Hrun as <-. now rewrite app_nil_r.
  - cbn [for_topics] in Hrun. unfold bind in Hrun.
    destruct (search_topic results self c t fr) as [[[]|e] fr1] eqn:Ht; [|discriminate].
    rewrite (IH _ _ Hrun). rewrite search_topic_eq in Ht.
    rewrite (consume_queries _ _ _ _ _ Ht). cbn [log map].
    now rewrite queries_app, <- app_assoc.
Qed.

(** C4, amended.  When the stream of a topic is in descending order of
    [published] and holds an item older than the cutoff, the loop passes
    to the dedup step exactly the items at or after the cutoff, which form
    the longest such prefix of the stream; it pulls that prefix and the
    first older item, and nothing after it.  Every item of the prefix is
    represented in the returned sequence by exactly one record with its
    identifier: the paper of the first result with that identifier among
    those encountered up to the end of the prefix, which is the item
    itself when none before it has its identifier.  (No use is made of
    the stream holding a recent item: with none, the prefix is empty.) *)
Theorem cutoff_early_termination pre topic post fr :
  let c := cutoff self now in
  let g := results (log fr) (search_for self topic) in
  let prefix := filter (recent c) (gen_items g) in
  for_topics results self c pre initial = (Normal tt, fr) ->
  descending (gen_items g) ->
  (exists r, In r (gen_items g) /\ recent c r = false) ->
  exists old rest,
    gen_items g = prefix ++ old :: rest
    /\ recent c old = false
    /\ for_topics results self c (pre ++ topic :: post) initial
       = for_topics results self c post
           {| all_papers := fold_left add_if_new prefix (all_papers fr);
              log := log fr ++ Query (search_for self topic)
                       :: map Next prefix ++ [Next old] |}
    /\ forall out lg,
         search_papers results OverflowError self now (pre ++ topic :: post)
         = (Normal out, lg) ->
         forall r, In r prefix ->
           exists r0,
             first_with_id (result_id r) (encountered c (log fr) ++ prefix) = Some r0
             /\ filter (has_id (result_id r)) out = [paper_of r0].
Proof.
  intros c g prefix Hpre Hdesc (r0 & Hr0 & Hold0).
  destruct (descending_split c _ Hdesc) as (rec & rest0 & Hsplit & Hrec & Hrest).
  assert (prefix = rec) as Hprefix.
  { unfold prefix. rewrite Hsplit, filter_app.
    rewrite (filter_all _ _ _ Hrec), (filter_none _ _ _ Hrest). apply app_nil_r. }
  destruct rest0 as [|old rest].
  { rewrite app_nil_r in Hsplit. rewrite Hsplit in Hr0.
    rewrite Forall_forall in Hrec. rewrite (Hrec _ Hr0) in Hold0. discriminate. }
  assert (recent c old = false) as Hold by now inversion Hrest.
  assert (for_topics results self c (pre ++ topic :: post) initial
          = for_topics results self c post
              {| all_papers := fold_left add_if_new prefix (all_papers fr);
                 log := log fr ++ Query (search_for self topic)
                          :: map Next prefix ++ [Next old] |}) as Hrun.
  { rewrite for_topics_app, Hpre. cbn [for_topics]. unfold bind.
    rewrite search_topic_eq. fold g.
    destruct (gen_decompose _ g) as (tail & Hg & _).
    rewrite Hg, Hsplit, yields_app, (consume_recent _ _ _ _ _ Hrec).
    cbn [yields fold_right]. rewrite (consume_old _ _ _ _ _ Hold).
    cbn [all_papers log]. rewrite Hprefix, <- !app_assoc. reflexivity. }
  exists old, rest. rewrite Hprefix at 1. repeat split; try assumption.
  intros out lg Hsearch r Hr.
  destruct (first_with_id_found (result_id r) (encountered c (log fr) ++ prefix) r)
    as [r1 Hfirst]; [apply in_or_app; now right|reflexivity|].
  exists r1. split; [exact Hfirst|].
  rewrite (returned_by_id _ _ _ _ _ _ _ _ _ Hsearch).
  apply search_papers_normal in Hsearch as (fr' & Hfr' & -> & _).
  fold c in Hfr' |- *. rewrite Hrun in Hfr'.
  destruct (for_topics_log _ _ _ _ _ _ _ _ Hfr') as (evs & ->). cbn [log].
  change (Query (search_for self topic) :: map Next prefix ++ [Next old])
    with ([Query (search_for self topic)] ++ map Next prefix ++ [Next old]).
  rewrite !encountered_app, encountered_Query, encountered_Next, Hold.
  assert (encountered c (map Next prefix) = prefix) as ->.
  { unfold encountered. rewrite pulled_Next, Hprefix. now apply filter_all. }
  cbn [app]. rewrite app_nil_r.
  now rewrite DedupFacts.first_with_id_app, Hfirst.
Qed.


(** C7.  When line 80 succeeds, the topics before [topic] are processed
    without failure and the stream of [topic] raises [e] after items that
    are all at or after the cutoff, [search_papers] raises [e] and returns
    nothing; the collaborator was sent the searches up to that of [topic]
    and none for the topics after it.  (Unless line 80 succeeds the
    collaborator is not asked for anything, and raises nothing.) *)
Theorem failure_propagates pre topic post fr items e :
  let c := cutoff self now in
  cutoff_ok self now = true ->
  for_topics results self c pre initial = (Normal tt, fr) ->
  results (log fr) (search_for self topic) = yields items (Raise e) ->
  Forall (fun r => recent c r = true) items ->
  search_papers results OverflowError self now (pre ++ topic :: post)
  = (Raised e, log fr ++ Query (search_for self topic) :: map Next items)
  /\ queries (snd (search_papers results OverflowError self now (pre ++ topic :: post)))
     = map (search_for self) (pre ++ [topic]).
Proof.
  intros c Hok Hpre Hgen Hrec.
  assert (search_papers results OverflowError self now (pre ++ topic :: post)
          = (Raised e, log fr ++ Query (search_for self topic) :: map Next items)) as Hrun.
  { rewrite (search_papers_eq _ _ _ _ _ _ Hok). fold c. rewrite for_topics_app, Hpre.
    cbn [for_topics]. unfold bind. rewrite search_topic_eq, Hgen.
    rewrite (consume_recent _ _ _ _ _ Hrec). cbn [consume log]. unfold raise.
    cbn [log]. now rewrite <- app_assoc. }
  split; [exact Hrun|]. rewrite Hrun. cbn [snd].
  rewrite queries_app, (for_topics_queries _ _ _ _ Hpre). cbn [queries initial log].
  now rewrite queries_Next, map_app.
Qed.

(** C8, amended.  On the empty list of topics [search_papers] sends the
    collaborator nothing; it returns the empty sequence and raises nothing
    when the cutoff of line 80 can be computed, and raises [OverflowError]
    when it cannot: when [timedelta(hours=hours_back)] or [now] minus it
    is out of range. *)
Theorem search_papers_no_topics :
  search_papers results OverflowError self now []
  = if cutoff_ok self now then (Normal [], []) else (Raised OverflowError, []).
Proof.
  destruct (cutoff_ok self now) eqn:Hok.
  - now rewrite (search_papers_eq _ _ _ _ _ _ Hok).
  - now apply search_papers_overflow.
Qed.

End Topics.

(* ================================================================= *)
(** ** The statements on the concrete collaborator *)

Module DemoFacts.

Import Demo.

Local Open Scope list_scope.

Lemma run_a_b :
  search_papers collaborator overflow client now ["a"; "b"]
  = (Normal (returned ["a"; "b"]), logged ["a"; "b"]).
Proof. vm_compute. reflexivity. Defined.

(** Topic ["a"] gives two recent papers and stops at the third result;
    topic ["b"] adds one paper and meets the first one again. *)
Example returned_a_b :
  returned ["a"; "b"] = [paper_of a1; paper_of b1; paper_of a2]
  /\ pulled (logged ["a"; "b"]) = [a1; a2; a3; b1; b2]
  /\ map query (queries (logged ["a"; "b"])) = ["a"; "b"].
Proof. vm_compute. repeat split. Qed.

Example abstract_a1 :
  abstract (paper_of a1) = "first line second line".
Proof. reflexivity. Qed.

Lemma search_papers_unique_ids_witness :
  search_papers collaborator overflow client now ["a"; "b"]
  = (Normal (returned ["a"; "b"]), logged ["a"; "b"])
  /\ NoDup (map arxiv_id (returned ["a"; "b"])).
Proof.
  split; [exact run_a_b|].
  exact (search_papers_unique_ids string collaborator overflow client now
           ["a"; "b"] (returned ["a"; "b"]) (logged ["a"; "b"]) run_a_b).
Defined.

Lemma search_papers_recent_witness :
  search_papers collaborator overflow client now ["a"; "b"]
  = (Normal (returned ["a"; "b"]), logged ["a"; "b"])
  /\ Forall (fun p => (3400000000 <= published p)%Z) (returned ["a"; "b"]).
Proof.
  split; [exact run_a_b|].
  exact (search_papers_recent string collaborator overflow client now
           ["a"; "b"] (returned ["a"; "b"]) (logged ["a"; "b"]) run_a_b).
Defined.

Lemma search_papers_sorted_stable_witness :
  search_papers collaborator overflow client now ["a"; "b"]
  = (Normal (returned ["a"; "b"]), logged ["a"; "b"])
  /\ newest_first (returned ["a"; "b"])
  /\ filter (published_at 5000000000%Z) (returned ["a"; "b"]) = [paper_of a1; paper_of b1].
Proof.
  split; [exact run_a_b|].
  destruct (search_papers_sorted_stable string collaborator overflow client now
              ["a"; "b"] (returned ["a"; "b"]) (logged ["a"; "b"]) run_a_b)
    as (fr & Hfr & Hsorted & _ & Hstable).
  split; [exact Hsorted|].
  rewrite Hstable. injection Hfr as <-. reflexivity.
Defined.

Lemma search_papers_fields_witness :
  search_papers collaborator overflow client now ["a"; "b"]
  = (Normal (returned ["a"; "b"]), logged ["a"; "b"])
  /\ In (paper_of a1) (returned ["a"; "b"])
  /\ exists r,
       first_with_id "2401.00001" (encountered (cutoff client now) (logged ["a"; "b"]))
       = Some r
       /\ abstract (paper_of a1) = map_chars unbreak (Raw.summary r)
       /\ title (paper_of a1) = Raw.title r.
Proof.
  split; [exact run_a_b|]. split; [now left|].
  destruct (search_papers_fields string collaborator overflow client now
              ["a"; "b"] (returned ["a"; "b"]) (logged ["a"; "b"]) (paper_of a1)
              run_a_b (or_introl eq_refl))
    as (r & Hfirst & _ & Habs & Htitle & _).
  exists r. repeat split; assumption.
Defined.



Lemma cutoff_early_termination_witness :
  for_topics collaborator client (cutoff client now) [] initial = (Normal tt, initial)
  /\ descending (gen_items (collaborator [] (search_for client "a")))
  /\ (exists r, In r (gen_items (collaborator [] (search_for client "a")))
                /\ recent (cutoff client now) r = false)
  /\ exists old rest,
       [a1; a2; a3; a4] = [a1; a2] ++ old :: rest
       /\ for_topics collaborator client (cutoff client now) ["a"; "b"] initial
          = for_topics collaborator client (cutoff client now) ["b"]
              {| all_papers := fold_left add_if_new [a1; a2] Dict.empty;
                 log := [Query (search_for client "a"); Next a1; Next a2; Next old] |}.
Proof.
  assert (descending (gen_items (collaborator [] (search_for client "a")))) as Hd.
  { repeat constructor; vm_compute; discriminate. }
  assert (exists r, In r (gen_items (collaborator [] (search_for client "a")))
                    /\ recent (cutoff client now) r = false) as Hold.
  { exists a3. split; [right; right; now left|reflexivity]. }
  split; [reflexivity|]. split; [exact Hd|]. split; [exact Hold|].
  destruct (cutoff_early_termination string collaborator overflow client now
              [] "a" ["b"] initial eq_refl Hd Hold)
    as (old & rest & Hsplit & _ & Hrun & _).
  exists old, rest. split; [exact Hsplit|exact Hrun].
Defined.

Lemma failure_propagates_witness :
  cutoff_ok client now = true
  /\ for_topics collaborator client (cutoff client now) ["a"] initial
     = (Normal tt, frame_after ["a"])
  /\ collaborator (log (frame_after ["a"])) (search_for client "c")
     = yields [c1] (Raise "HTTP 503"%string)
  /\ Forall (fun r => recent (cutoff client now) r = true) [c1]
  /\ fst (search_papers collaborator overflow client now ["a"; "c"; "b"]) = Raised "HTTP 503"%string
  /\ map query (queries (snd (search_papers collaborator overflow client now ["a"; "c"; "b"])))
     = ["a"; "c"]%string.
Proof.
  assert (for_topics collaborator client (cutoff client now) ["a"] initial
          = (Normal tt, frame_after ["a"])) as Hpre by (vm_compute; reflexivity).
  assert (Forall (fun r => recent (cutoff client now) r = true) [c1]) as Hrec
    by (repeat constructor).
  split; [reflexivity|].
  split; [exact Hpre|]. split; [reflexivity|]. split; [exact Hrec|].
  destruct (failure_propagates string collaborator overflow client now
              ["a"] "c" ["b"] (frame_after ["a"]) [c1] "HTTP 503"%string
              eq_refl Hpre eq_refl Hrec) as [Hrun Hq].
  split.
  - change (["a"; "c"; "b"]) with (["a"] ++ "c" :: ["b"]). now rewrite Hrun.
  - change (["a"; "c"; "b"]) with (["a"] ++ "c" :: ["b"]). now rewrite Hq.
Defined.

(** C4, as stated, fails: with the topics ["b"] and ["a"] in this order
    the stream of ["a"] is in descending order and holds items on both
    sides of the cutoff, [a1] is in its prefix of recent items, and yet no
    returned record is built from [a1]: the one record with its identifier
    is built from [b2], met before in the stream of ["b"]. *)
Lemma prefix_item_not_returned :
  descending (gen_items (collaborator [] (search_for client "b")))
  /\ descending (gen_items (collaborator [] (search_for client "a")))
  /\ recent (cutoff client now) a1 = true
  /\ recent (cutoff client now) a3 = false
  /\ In a1 (filter (recent (cutoff client now))
              (gen_items (collaborator [] (search_for client "a"))))
  /\ fst (search_papers collaborator overflow client now ["b"; "a"])
     = Normal (returned ["b"; "a"])
  /\ filter (has_id (result_id a1)) (returned ["b"; "a"]) = [paper_of b2]
  /\ ~ In (paper_of a1) (returned ["b"; "a"]).
Proof.
  split; [repeat constructor; vm_compute; discriminate|].
  split; [repeat constructor; vm_compute; discriminate|].
  split; [reflexivity|]. split; [reflexivity|]. split; [now left|].
  split; [vm_compute; reflexivity|]. split; [vm_compute; reflexivity|].
  intros Hin.
  assert (In (paper_of a1) (filter (has_id (result_id a1)) (returned ["b"; "a"]))) as Hf
    by (apply filter_In; split; [exact Hin|reflexivity]).
  assert (filter (has_id (result_id a1)) (returned ["b"; "a"]) = [paper_of b2]) as E
    by (vm_compute; reflexivity).
  rewrite E in Hf. destruct Hf as [Hf|[]].
  apply (f_equal title) in Hf. vm_compute in Hf. discriminate.
Qed.

(** C8, as stated, fails: a client made with [hours_back=20000000] has its
    cutoff before the year 1, and [search_papers] raises [OverflowError]
    on the empty list of topics. *)
Lemma no_topics_far_back :
  hours_back far_client = 20000000%Z
  /\ datetime_ok now = true
  /\ datetime_ok (cutoff far_client now) = false
  /\ search_papers collaborator overflow far_client now [] = (Raised overflow, []).
Proof. repeat split. Qed.

End DemoFacts.

(* ================================================================= *)
(** ** More on the identifier *)

Module IdMore.

Import PyStrFacts.

Lemma mem_app c a b : PyStr.mem c (a ++ b) = PyStr.mem c a || PyStr.mem c b.
Proof.
  induction a as [|d a IH]; simpl; [reflexivity|]. now rewrite IH, orb_assoc.
Qed.

Lemma before_first_misses c s : PyStr.mem c (before_first c s) = false.
Proof.
  induction s as [|d s IH]; simpl; [reflexivity|].
  destruct (Ascii.eqb d c) eqn:E; [reflexivity|]. simpl. now rewrite E.
Qed.

Lemma before_first_keeps_absent c d s :
  PyStr.mem d s = false -> PyStr.mem d (before_first c s) = false.
Proof.
  induction s as [|a s IH]; simpl; [reflexivity|].
  intros H. apply orb_false_iff in H as [Ha Hs].
  destruct (Ascii.eqb a c); [reflexivity|]. simpl. now rewrite Ha, (IH Hs).
Qed.

Lemma before_first_absent c s : PyStr.mem c s = false -> before_first c s = s.
Proof.
  induction s as [|d s IH]; simpl; [reflexivity|].
  intros H. apply orb_false_iff in H as [Hd Hs]. now rewrite Hd, (IH Hs).
Qed.

Lemma before_first_app c stem rest :
  PyStr.mem c stem = false -> before_first c (stem ++ String c rest) = stem.
Proof.
  induction stem as [|d stem IH]; simpl.
  - now rewrite Ascii.eqb_refl.
  - intros H. apply orb_false_iff in H as [Hd Hs]. now rewrite Hd, (IH Hs).
Qed.

Lemma trailing_segment_whole s : PyStr.mem "/" s = false -> trailing_segment s = s.
Proof.
  intros H. unfold trailing_segment. now rewrite (split_absent _ _ H).
Qed.

Lemma extract_id_no_slash uri : PyStr.mem "/" (extract_id uri) = false.
Proof.
  rewrite IdFacts.extract_id_cut.
  apply before_first_keeps_absent, IdFacts.trailing_segment_no_slash.
Qed.

Lemma extract_id_no_v uri : PyStr.mem "v" (extract_id uri) = false.
Proof. rewrite IdFacts.extract_id_cut. apply before_first_misses. Qed.

(** X1.  An identifier holds neither ["/"] nor ["v"]. *)
Theorem extract_id_alphabet uri :
  PyStr.mem "/" (extract_id uri) = false /\ PyStr.mem "v" (extract_id uri) = false.
Proof. split; [apply extract_id_no_slash|apply extract_id_no_v]. Qed.

(** X2.  Extracting the identifier of an identifier gives it back. *)
Theorem extract_id_idempotent uri : extract_id (extract_id uri) = extract_id uri.
Proof.
  rewrite (IdFacts.extract_id_cut (extract_id uri)).
  rewrite (trailing_segment_whole _ (extract_id_no_slash uri)).
  apply before_first_absent, extract_id_no_v.
Qed.

(** X3.  Only what follows the last ["/"] of the URI counts: an old-style
    identifier loses its archive, and two URIs that differ before the last
    ["/"] get one identifier. *)
Theorem extract_id_ignores_path pre seg :
  PyStr.mem "/" seg = false ->
  extract_id (pre ++ String "/" seg) = extract_id seg.
Proof.
  intros H. rewrite !IdFacts.extract_id_cut.
  now rewrite (IdFacts.trailing_segment_app _ _ H), (trailing_segment_whole _ H).
Qed.

Lemma extract_id_ignores_path_witness :
  PyStr.mem "/" "9901001v1" = false
  /\ extract_id Demo.hep_th = extract_id "9901001v1"
  /\ extract_id Demo.hep_th = extract_id Demo.math_ph.
Proof.
  split; [reflexivity|]. split.
  - exact (extract_id_ignores_path "http://arxiv.org/abs/hep-th" "9901001v1" eq_refl).
  - reflexivity.
Defined.

(** X4.  Whatever follows the first ["v"] of the trailing segment is
    dropped: all versions of a paper, and anything else written after the
    ["v"], get the identifier [stem]. *)
Theorem extract_id_drops_version pre stem rest :
  PyStr.mem "/" stem = false ->
  PyStr.mem "v" stem = false ->
  PyStr.mem "/" rest = false ->
  extract_id (pre ++ String "/" (stem ++ String "v" rest)) = stem.
Proof.
  intros Hs Hv Hr. rewrite IdFacts.extract_id_cut.
  rewrite IdFacts.trailing_segment_app.
  - now apply before_first_app.
  - rewrite mem_app, Hs. simpl. exact Hr.
Qed.

Lemma extract_id_drops_version_witness :
  PyStr.mem "/" "2401.00001" = false
  /\ PyStr.mem "v" "2401.00001" = false
  /\ PyStr.mem "/" "12" = false
  /\ extract_id "http://arxiv.org/abs/2401.00001v12" = "2401.00001".
Proof.
  split; [reflexivity|]. split; [reflexivity|]. split; [reflexivity|].
  exact (extract_id_drops_version "http://arxiv.org/abs" "2401.00001" "12"
           eq_refl eq_refl eq_refl).
Defined.

(** X5.  A URI that ends in ["/"] has the empty identifier. *)
Theorem extract_id_trailing_slash pre : extract_id (pre ++ "/") = "".
Proof.
  rewrite IdFacts.extract_id_cut.
  now rewrite (IdFacts.trailing_segment_app pre "" eq_refl).
Qed.

End IdMore.

(* ================================================================= *)
(** ** More on the loops *)

Section LoopMore.

Local Open Scope list_scope.

Variable Err : Type.
Variable results : list Event -> Search -> Gen Err.
Variable self : ArxivClient.
Variable c : datetime.

(** How a generator meets the loop: it is exhausted, or it raises, or it
    shows an old item, in each case after recent items only. *)
Lemma gen_cases (g : Gen Err) :
  exists pre tail,
    g = yields pre tail
    /\ Forall (fun r => recent c r = true) pre
    /\ (tail = Stop
        \/ (exists e, tail = Raise e)
        \/ (exists old g', tail = Yield old g' /\ recent c old = false)).
Proof.
  induction g as [|e|r g (pre & tail & Hg & Hpre & Htail)].
  - exists [], Stop. repeat split; [constructor|now left].
  - exists [], (Raise e). repeat split; [constructor|right; left; now exists e].
  - destruct (recent c r) eqn:Hr.
    + exists (r :: pre), tail. rewrite Hg. repeat split; [now constructor|exact Htail].
    + exists [], (Yield r g). repeat split; [constructor|].
      right; right. now exists r, g.
Qed.

(** The loops only append to the dict. *)
Lemma add_if_new_extends d r : exists ext, add_if_new d r = d ++ ext.
Proof.
  rewrite DictFacts.add_if_new_eq. destruct (Dict.mem (result_id r) d).
  - exists []. now rewrite app_nil_r.
  - eauto.
Qed.

Lemma consume_extends (g : Gen Err) : forall fr o fr',
  consume c g fr = (o, fr') -> exists ext, all_papers fr' = all_papers fr ++ ext.
Proof.
  induction g as [|e|r g IH]; intros fr o fr' Hrun.
  - injection Hrun as _ <-. exists []. now rewrite app_nil_r.
  - injection Hrun as _ <-. exists []. now rewrite app_nil_r.
  - destruct (recent c r) eqn:Hr.
    + rewrite (consume_step _ _ _ _ _ Hr) in Hrun.
      destruct (IH _ _ _ Hrun) as [ext Hext]. cbn [all_papers] in Hext.
      destruct (add_if_new_extends (all_papers fr) r) as [ext0 H0].
      exists (ext0 ++ ext). now rewrite Hext, H0, app_assoc.
    + rewrite (consume_old _ _ _ _ _ Hr) in Hrun. injection Hrun as _ <-.
      exists []. cbn [all_papers]. now rewrite app_nil_r.
Qed.

Lemma for_topics_extends topics : forall fr o fr',
  for_topics results self c topics fr = (o, fr') ->
  exists ext, all_papers fr' = all_papers fr ++ ext.
Proof.
  induction topics as [|t topics IH]; intros fr o fr' Hrun.
  - injection Hrun as _ <-. exists []. now rewrite app_nil_r.
  - cbn [for_topics] in Hrun. unfold bind in Hrun.
    destruct (search_topic results self c t fr) as [[[]|e] fr1] eqn:Ht;
      rewrite search_topic_eq in Ht;
      destruct (consume_extends _ _ _ _ Ht) as [ext1 H1]; cbn [all_papers] in H1.
    + destruct (IH _ _ _ Hrun) as [ext2 H2].
      exists (ext1 ++ ext2). now rewrite H2, H1, app_assoc.
    + injection Hrun as _ <-. now exists ext1.
Qed.

(** A loop pulls no more than the generator has. *)
Lemma consume_pulled_bound (g : Gen Err) : forall fr o fr',
  consume c g fr = (o, fr') ->
  List.length (pulled (log fr')) <= List.length (pulled (log fr)) + List.length (gen_items g).
Proof.
  induction g as [|e|r g IH]; intros fr o fr' Hrun.
  - injection Hrun as _ <-. simpl. lia.
  - injection Hrun as _ <-. simpl. lia.
  - destruct (recent c r) eqn:Hr.
    + rewrite (consume_step _ _ _ _ _ Hr) in Hrun. apply IH in Hrun.
      cbn [log] in Hrun. rewrite pulled_app, length_app in Hrun. simpl in *. lia.
    + rewrite (consume_old _ _ _ _ _ Hr) in Hrun. injection Hrun as _ <-.
      cbn [log]. rewrite pulled_app, length_app. simpl. lia.
Qed.

Lemma pulled_Query l q : pulled (l ++ [Query q]) = pulled l.
Proof. rewrite pulled_app. apply app_nil_r. Qed.

Lemma for_topics_pulled_bound n topics : forall fr o fr',
  (forall lg t, In t topics ->
     List.length (gen_items (results lg (search_for self t))) <= n) ->
  for_topics results self c topics fr = (o, fr') ->
  List.length (pulled (log fr')) <= List.length (pulled (log fr)) + List.length topics * n.
Proof.
  induction topics as [|t topics IH]; intros fr o fr' Hn Hrun.
  - injection Hrun as _ <-. simpl. lia.
  - cbn [for_topics] in Hrun. unfold bind in Hrun.
    pose proof (Hn (log fr) t (or_introl eq_refl)) as Ht0.
    destruct (search_topic results self c t fr) as [[[]|e] fr1] eqn:Ht;
      rewrite search_topic_eq in Ht; apply consume_pulled_bound in Ht;
      cbn [log] in Ht; rewrite pulled_Query in Ht.
    + apply IH in Hrun; [|intros lg t' Hin; apply Hn; now right].
      cbn [List.length]. lia.
    + injection Hrun as _ <-. cbn [List.length]. lia.
Qed.

(** An exception leaving a loop is one a generator raised. *)
Lemma consume_raises (g : Gen Err) : forall fr e fr',
  consume c g fr = (Raised e, fr') -> gen_raises g e.
Proof.
  induction g as [|e0|r g IH]; intros fr e fr' Hrun.
  - discriminate.
  - now injection Hrun as ->.
  - destruct (recent c r) eqn:Hr.
    + rewrite (consume_step _ _ _ _ _ Hr) in Hrun. exact (IH _ _ _ Hrun).
    + rewrite (consume_old _ _ _ _ _ Hr) in Hrun. discriminate.
Qed.

Lemma for_topics_raises topics : forall fr e fr',
  for_topics results self c topics fr = (Raised e, fr') ->
  exists t lg, In t topics /\ gen_raises (results lg (search_for self t)) e.
Proof.
  induction topics as [|t topics IH]; intros fr e fr' Hrun; [discriminate|].
  cbn [for_topics] in Hrun. unfold bind in Hrun.
  destruct (search_topic results self c t fr) as [[[]|e0] fr1] eqn:Ht.
  - destruct (IH _ _ _ Hrun) as (t' & lg & Hin & Hr).
    exists t', lg. split; [now right|exact Hr].
  - injection Hrun as -> _. rewrite search_topic_eq in Ht.
    exists t, (log fr). split; [now left|exact (consume_raises _ _ _ _ Ht)].
Qed.

(** The searches sent are those of the first topics, in their order. *)
Lemma for_topics_queries_prefix topics : forall fr o fr',
  for_topics results self c topics fr = (o, fr') ->
  exists n,
    n <= List.length topics
    /\ queries (log fr') = queries (log fr) ++ map (search_for self) (firstn n topics)
    /\ (forall u, o = Normal u -> n = List.length topics).
Proof.
  induction topics as [|t topics IH]; intros fr o fr' Hrun.
  - injection Hrun as <- <-. exists 0. simpl. rewrite app_nil_r. now repeat split.
  - cbn [for_topics] in Hrun. unfold bind in Hrun.
    destruct (search_topic results self c t fr) as [[[]|e] fr1] eqn:Ht;
      rewrite search_topic_eq in Ht; apply consume_queries in Ht;
      cbn [log] in Ht; rewrite queries_app in Ht; cbn [queries] in Ht.
    + destruct (IH _ _ _ Hrun) as (n & Hn & Hq & Hall).
      exists (S n). cbn [List.length firstn map]. split; [lia|]. split.
      * now rewrite Hq, Ht, <- app_assoc.
      * intros u Hu. now rewrite (Hall u Hu).
    + injection Hrun as <- <-. exists 1. cbn [List.length firstn map].
      split; [lia|]. split; [exact Ht|discriminate].
Qed.

(** Results whose identifiers the dict knows leave it as it is. *)
Lemma fold_add_known pre : forall d,
  (forall r, In r pre -> Dict.mem (result_id r) d = true) ->
  fold_left add_if_new pre d = d.
Proof.
  induction pre as [|r pre IH]; intros d H; [reflexivity|].
  cbn [fold_left]. unfold add_if_new at 2.
  rewrite (H r (or_introl eq_refl)). apply IH. intros r' Hr'. apply H. now right.
Qed.

Lemma dedup_length rs : List.length (dedup rs) <= List.length rs.
Proof.
  induction rs as [|r rs IH] using rev_ind; [simpl; lia|].
  rewrite DedupFacts.dedup_snoc, DictFacts.add_if_new_eq, length_app.
  destruct (Dict.mem (result_id r) (dedup rs)); [simpl; lia|].
  rewrite length_app. simpl. lia.
Qed.

End LoopMore.

(* ================================================================= *)
(** ** More on [search_papers] and [search_single_topic] *)

Section SearchMore.

Local Open Scope list_scope.

Variable Err : Type.
Variable results : list Event -> Search -> Gen Err.
Variable OverflowError : Err.
Variable self : ArxivClient.
Variable now : datetime.

(** X6.  [search_single_topic], when line 80 succeeds, on a stream that
    shows an old result after recent ones only: it returns the papers of
    those recent results, first occurrences only, newest first, having
    pulled them and the old result.  What the stream holds after the old
    result plays no part, be it recent results or an exception. *)
Theorem search_single_topic_break query pre old g' :
  cutoff_ok self now = true ->
  results [] (search_for self query) = yields pre (Yield old g') ->
  Forall (fun r => recent (cutoff self now) r = true) pre ->
  recent (cutoff self now) old = false ->
  search_single_topic results OverflowError self now query
  = (Normal (sorted_desc published (Dict.values (dedup pre))),
     Query (search_for self query) :: map Next pre ++ [Next old]).
Proof.
  intros Hok Hg Hpre Hold. unfold search_single_topic.
  rewrite (search_papers_eq _ _ _ _ _ _ Hok). cbn [for_topics]. unfold bind.
  rewrite search_topic_eq. cbn [initial log all_papers]. rewrite Hg.
  rewrite (consume_recent _ _ _ _ _ Hpre). cbn [all_papers log app].
  rewrite (consume_old _ _ _ _ _ Hold). cbn [all_papers log ret].
  unfold ret, dedup, Dict.empty. reflexivity.
Qed.

(** X7.  [search_single_topic], when line 80 succeeds, on a stream of
    recent results that ends normally returns the papers of all of them,
    first occurrences only, newest first, having pulled them all. *)
Theorem search_single_topic_exhausted query items :
  cutoff_ok self now = true ->
  results [] (search_for self query) = yields items Stop ->
  Forall (fun r => recent (cutoff self now) r = true) items ->
  search_single_topic results OverflowError self now query
  = (Normal (sorted_desc published (Dict.values (dedup items))),
     Query (search_for self query) :: map Next items).
Proof.
  intros Hok Hg Hrec. unfold search_single_topic.
  rewrite (search_papers_eq _ _ _ _ _ _ Hok). cbn [for_topics]. unfold bind.
  rewrite search_topic_eq. cbn [initial log all_papers]. rewrite Hg.
  rewrite (consume_recent _ _ _ _ _ Hrec). reflexivity.
Qed.

(** X8.  Whatever the outcome, the searches sent are those of the first
    [n] topics, one each and in the order of the list, each asking for
    [max_results] results by submission date, newest first; on a normal
    return [n] is the number of topics. *)
Theorem searches_follow_topics topics o lg :
  search_papers results OverflowError self now topics = (o, lg) ->
  exists n,
    n <= List.length topics
    /\ queries lg
       = map (fun t => {| query := t;
                          search_max_results := max_results self;
                          sort_by := SubmittedDate;
                          sort_order := Descending |}) (firstn n topics)
    /\ (forall out, o = Normal out -> n = List.length topics).
Proof.
  destruct (cutoff_ok self now) eqn:Hok.
  - rewrite (search_papers_eq _ _ _ _ _ _ Hok).
    destruct (for_topics results self (cutoff self now) topics initial)
      as [o' fr] eqn:Hrun.
    destruct (for_topics_queries_prefix _ _ _ _ _ _ _ _ Hrun) as (n & Hn & Hq & Hall).
    intros H. exists n. split; [exact Hn|]. split.
    + destruct o' as [[]|e]; injection H as <- <-; exact Hq.
    + intros out ->. destruct o' as [[]|e]; [|discriminate]. now apply (Hall tt).
  - rewrite (search_papers_overflow _ _ _ _ _ _ Hok). intros [= <- <-].
    exists 0. split; [lia|]. split; [reflexivity|discriminate].
Qed.

(** X9.  An exception raised by [search_papers] comes from one of two
    places: it is the [OverflowError] of line 80, raised when the cutoff
    cannot be computed and before anything is asked of the collaborator,
    or, line 80 having succeeded, it is one that the generator of one of
    the topics raises. *)
Theorem raised_exceptions_origin topics e lg :
  search_papers results OverflowError self now topics = (Raised e, lg) ->
  (cutoff_ok self now = false /\ e = OverflowError /\ lg = [])
  \/ (cutoff_ok self now = true
      /\ exists t lg', In t topics /\ gen_raises (results lg' (search_for self t)) e).
Proof.
  destruct (cutoff_ok self now) eqn:Hok.
  - rewrite (search_papers_eq _ _ _ _ _ _ Hok).
    destruct (for_topics results self (cutoff self now) topics initial)
      as [[[]|e'] fr] eqn:Hrun; [discriminate|].
    intros [= <- _]. right. split; [reflexivity|].
    exact (for_topics_raises _ _ _ _ _ _ _ _ Hrun).
  - rewrite (search_papers_overflow _ _ _ _ _ _ Hok). intros [= <- <-].
    left. now repeat split.
Qed.

(** X10.  The identifiers of the returned papers are exactly those of the
    results that were pulled and are not older than the cutoff. *)
Theorem returned_ids_complete topics out lg i :
  search_papers results OverflowError self now topics = (Normal out, lg) ->
  In i (map arxiv_id out)
  <-> exists r, In r (pulled lg)
                /\ (cutoff self now <= Raw.published r)%Z
                /\ extract_id (Raw.entry_id r) = i.
Proof.
  intros H.
  pose proof (Permutation_map arxiv_id (returned_perm _ _ _ _ _ _ _ _ H)) as P.
  rewrite DedupFacts.dedup_ids in P.
  assert (In i (Dict.keys (dedup (encountered (cutoff self now) lg)))
          <-> exists r, In r (pulled lg)
                        /\ (cutoff self now <= Raw.published r)%Z
                        /\ extract_id (Raw.entry_id r) = i) as Hkeys.
  { rewrite <- DictFacts.mem_keys, DedupFacts.dedup_mem. unfold encountered.
    split; intros (r & Hr & Hid).
    - apply filter_In in Hr as [Hin Hrec]. apply Z.leb_le in Hrec. now exists r.
    - destruct Hid as [Hrec Hid]. exists r. split; [|exact Hid].
      apply filter_In. split; [exact Hr|now apply Z.leb_le]. }
  rewrite <- Hkeys. split; intros Hin.
  - exact (Permutation_in _ P Hin).
  - exact (Permutation_in _ (Permutation_sym P) Hin).
Qed.

(** X11.  If the collaborator gives at most [n] results per search, the
    returned papers number at most [n] per topic. *)
Theorem returned_at_most topics n out lg :
  (forall lg' t, In t topics ->
     List.length (gen_items (results lg' (search_for self t))) <= n) ->
  search_papers results OverflowError self now topics = (Normal out, lg) ->
  List.length out <= List.length topics * n.
Proof.
  intros Hn H.
  pose proof (Permutation_length (returned_perm _ _ _ _ _ _ _ _ H)) as Hlen.
  apply search_papers_normal in H as (fr & Hrun & -> & _ & _).
  apply (for_topics_pulled_bound _ _ _ _ n) in Hrun; [|exact Hn].
  cbn [initial log pulled List.length] in Hrun.
  rewrite Hlen. unfold Dict.values. rewrite length_map.
  pose proof (dedup_length (encountered (cutoff self now) (log fr))) as Hd.
  pose proof (filter_length_le (recent (cutoff self now)) (pulled (log fr))) as Hf.
  unfold encountered in *. lia.
Qed.

(** X12.  Adding topics at the end never removes or changes a paper that
    the shorter list returns: when the longer search returns, so does the
    shorter one, its log is the beginning of the longer one's, and each of
    its papers is among those of the longer one. *)
Theorem more_topics_only_add pre post out2 lg2 :
  search_papers results OverflowError self now (pre ++ post) = (Normal out2, lg2) ->
  exists out1 lg1 evs,
    search_papers results OverflowError self now pre = (Normal out1, lg1)
    /\ lg2 = lg1 ++ evs
    /\ forall p, In p out1 -> In p out2.
Proof.
  intros H. pose proof (search_papers_normal_ok _ _ _ _ _ _ _ _ H) as Hok.
  revert H. rewrite !(search_papers_eq _ _ _ _ _ _ Hok), for_topics_app.
  destruct (for_topics results self (cutoff self now) pre initial)
    as [[[]|e] fr1] eqn:Hpre; [|discriminate].
  destruct (for_topics results self (cutoff self now) post fr1)
    as [[[]|e] fr2] eqn:Hpost; [|discriminate].
  intros [= <- <-].
  destruct (for_topics_log _ _ _ _ _ _ _ _ Hpost) as [evs Hevs].
  destruct (for_topics_extends _ _ _ _ _ _ _ _ Hpost) as [ext Hext].
  eexists _, _, evs. split; [reflexivity|]. split; [exact Hevs|].
  intros p Hp.
  apply (Permutation_in _ (Permutation_sym (sorted_desc_perm _ published _))).
  apply (Permutation_in _ (sorted_desc_perm _ published _)) in Hp.
  rewrite Hext. unfold Dict.values in *. rewrite map_app. apply in_or_app. now left.
Qed.

(** X13.  When line 80 succeeds and every stream searched is empty or
    begins with a result older than the cutoff, [search_papers] returns
    the empty sequence, having sent one search per topic and pulled at
    most one result per topic. *)
Theorem nothing_recent topics :
  cutoff_ok self now = true ->
  (forall lg t, In t topics ->
     match results lg (search_for self t) with
     | Stop => True
     | Raise _ => False
     | Yield r _ => recent (cutoff self now) r = false
     end) ->
  exists lg,
    search_papers results OverflowError self now topics = (Normal [], lg)
    /\ queries lg = map (search_for self) topics
    /\ List.length (pulled lg) <= List.length topics.
Proof.
  intros Hok Hstale.
  assert (forall fr, exists fr',
            for_topics results self (cutoff self now) topics fr = (Normal tt, fr')
            /\ all_papers fr' = all_papers fr
            /\ List.length (pulled (log fr'))
               <= List.length (pulled (log fr)) + List.length topics) as Hloop.
  { induction topics as [|t topics' IH]; intros fr.
    - exists fr. repeat split. simpl. lia.
    - assert (exists fr1,
                search_topic results self (cutoff self now) t fr = (Normal tt, fr1)
                /\ all_papers fr1 = all_papers fr
                /\ List.length (pulled (log fr1)) <= List.length (pulled (log fr)) + 1)
        as (fr1 & Ht & Hd1 & Hp1).
      { rewrite search_topic_eq.
        pose proof (Hstale (log fr) t (or_introl eq_refl)) as Hg.
        destruct (results (log fr) (search_for self t)) as [|e|r g]; [|destruct Hg|].
        - eexists. split; [reflexivity|]. cbn [all_papers log].
          rewrite pulled_Query. split; [reflexivity|lia].
        - rewrite (consume_old _ _ _ _ _ Hg). eexists. split; [reflexivity|].
          cbn [all_papers log]. rewrite pulled_app, pulled_Query.
          split; [reflexivity|]. rewrite length_app. simpl. lia. }
      destruct (IH (fun lg t' Hin => Hstale lg t' (or_intror Hin)) fr1)
        as (fr' & Hrun & Hd & Hp).
      exists fr'. cbn [for_topics]. unfold bind. rewrite Ht.
      split; [exact Hrun|]. split; [congruence|]. cbn [List.length]. lia. }
  destruct (Hloop initial) as (fr' & Hrun & Hd & Hp).
  exists (log fr'). rewrite (search_papers_eq _ _ _ _ _ _ Hok), Hrun, Hd.
  cbn [initial all_papers].
  split; [reflexivity|]. split.
  - exact (for_topics_queries _ _ _ _ _ _ _ Hrun).
  - exact Hp.
Qed.

(** X14.  The abstract of a returned paper holds no line feed and has the
    length of the summary it was made from. *)
Theorem abstracts_on_one_line topics out lg p :
  search_papers results OverflowError self now topics = (Normal out, lg) ->
  In p out ->
  PyStr.mem LF (abstract p) = false
  /\ exists r, In r (pulled lg)
               /\ arxiv_id p = extract_id (Raw.entry_id r)
               /\ String.length (abstract p) = String.length (Raw.summary r).
Proof.
  intros H Hin.
  destruct (returned_from _ _ _ _ _ _ _ _ _ H Hin) as (r & Hr & ->).
  cbn [paper_of make_paper abstract arxiv_id]. rewrite PyStrFacts.replace_newline.
  split.
  - induction (Raw.summary r) as [|a s IH]; [reflexivity|].
    cbn [map_chars PyStr.mem]. rewrite IH, orb_false_r. unfold unbreak.
    destruct (Ascii.eqb a LF) eqn:E; [reflexivity|exact E].
  - exists r. unfold encountered in Hr. apply filter_In in Hr as [Hr _].
    split; [exact Hr|]. split; [reflexivity|].
    induction (Raw.summary r) as [|a s IH]; [reflexivity|]. simpl. now rewrite IH.
Qed.

End SearchMore.

(* ================================================================= *)
(** ** A topic given twice *)

Section Repeated.

Local Open Scope list_scope.

Variable Err : Type.

(** A collaborator that answers a search the same way each time. *)
Variable f : Search -> Gen Err.
Variable OverflowError : Err.
Variable self : ArxivClient.
Variable now : datetime.

Lemma encountered_within c l1 pre l2 r :
  In r pre -> recent c r = true ->
  In r (encountered c ((l1 ++ map Next pre) ++ l2)).
Proof.
  intros Hin Hrec. rewrite !encountered_app.
  apply in_or_app. left. apply in_or_app. right.
  unfold encountered. rewrite pulled_Next. apply filter_In. now split.
Qed.

(** After a loop that went through [t] and returned, the recent results
    at the head of the stream of [t] have all been to the dedup step, and
    that stream is one which does not raise there. *)
Lemma topic_seen c t topics : forall fr fr',
  for_topics (fun _ => f) self c topics fr = (Normal tt, fr') ->
  In t topics ->
  exists pre tail,
    f (search_for self t) = yields pre tail
    /\ Forall (fun r => recent c r = true) pre
    /\ (tail = Stop \/ exists old g', tail = Yield old g' /\ recent c old = false)
    /\ forall r, In r pre -> In r (encountered c (log fr')).
Proof.
  induction topics as [|t0 topics IH]; intros fr fr' Hrun Hin; [destruct Hin|].
  cbn [for_topics] in Hrun. unfold bind in Hrun.
  destruct (search_topic (fun _ => f) self c t0 fr) as [[[]|e] fr1] eqn:Ht;
    [|discriminate].
  destruct Hin as [->|Hin]; [|exact (IH _ _ Hrun Hin)].
  rewrite search_topic_eq in Ht. cbv beta in Ht.
  destruct (for_topics_log _ _ _ _ _ _ _ _ Hrun) as [evs Hevs].
  destruct (gen_cases _ c (f (search_for self t))) as (pre & tail & Hg & Hpre & Htail).
  rewrite Hg, (consume_recent _ _ _ _ _ Hpre) in Ht. cbn [all_papers log] in Ht.
  exists pre, tail. split; [exact Hg|]. split; [exact Hpre|].
  pose proof Hpre as Hall. rewrite Forall_forall in Hall.
  destruct Htail as [->|[(e & ->)|(old & g' & -> & Hold)]].
  - injection Ht as <-. cbn [log] in Hevs. split; [now left|].
    intros r Hr. rewrite Hevs. apply encountered_within; auto.
  - discriminate.
  - rewrite (consume_old _ _ _ _ _ Hold) in Ht. injection Ht as <-.
    cbn [log] in Hevs. split; [right; now exists old, g'|].
    intros r Hr. rewrite Hevs, <- app_assoc. apply encountered_within; auto.
Qed.

(** X15.  With a collaborator that answers a search the same way each
    time, searching once more a topic of the list returns the same
    papers in the same order. *)
Theorem repeated_topic_adds_nothing topics t out lg :
  search_papers (fun _ => f) OverflowError self now topics = (Normal out, lg) ->
  In t topics ->
  fst (search_papers (fun _ => f) OverflowError self now (topics ++ [t])) = Normal out.
Proof.
  intros H Hin. pose proof (search_papers_normal_ok _ _ _ _ _ _ _ _ H) as Hok.
  apply search_papers_normal in H as (fr & Hrun & -> & -> & Hco).
  destruct (topic_seen _ _ _ _ _ Hrun Hin) as (pre & tail & Hg & Hpre & Htail & Hseen).
  rewrite (search_papers_eq _ _ _ _ _ _ Hok), for_topics_app, Hrun.
  cbn [for_topics]. unfold bind.
  rewrite search_topic_eq. cbv beta. rewrite Hg, (consume_recent _ _ _ _ _ Hpre).
  cbn [all_papers log]. rewrite fold_add_known.
  - destruct Htail as [->|(old & g' & -> & Hold)].
    + reflexivity.
    + now rewrite (consume_old _ _ _ _ _ Hold).
  - intros r Hr. rewrite Hco. apply DedupFacts.dedup_mem.
    exists r. split; [exact (Hseen r Hr)|reflexivity].
Qed.

End Repeated.

(* ================================================================= *)
(** ** The constructor and the callers *)

Section Callers.

Local Open Scope list_scope.

Variable Err : Type.
Variable results : list Event -> Search -> Gen Err.
Variable OverflowError : Err.
Variable now : datetime.

(** X16.  Each attribute of the client depends on its own override
    only, and an override that is not falsy (a non-zero [int], a [float]
    that does not compare equal to [0.0]) becomes the attribute as it is,
    whatever the other two overrides are and negative values included:
    the constructor checks no range. *)
Theorem init_override_is_kept settings m d h :
  (forall v, v <> 0%Z -> max_results (init settings (Some v) d h) = v)
  /\ (forall x, PrimFloat.eqb x 0%float = false ->
        delay_seconds (init settings m (Some x) h) = x)
  /\ (forall v, v <> 0%Z -> hours_back (init settings m d (Some v)) = v)
  /\ max_results (init settings m d h) = max_results (init settings m None None)
  /\ delay_seconds (init settings m d h) = delay_seconds (init settings None d None)
  /\ hours_back (init settings m d h) = hours_back (init settings None None h).
Proof.
  repeat split.
  - intros v Hv. cbn. apply Z.eqb_neq in Hv. now rewrite Hv.
  - intros x Hx. cbn. now rewrite Hx.
  - intros v Hv. cbn. apply Z.eqb_neq in Hv. now rewrite Hv.
Qed.

(** X17.  [fetch_papers_for_topics] searches with the settings as they
    are, zero included: each topic is searched once, in order, for
    [arxiv_max_results] results, and every paper returned was published
    within the last [arxiv_hours_back] hours. *)
Theorem fetch_uses_settings settings topics out lg :
  fetch_papers_for_topics results OverflowError settings now topics = (Normal out, lg) ->
  queries lg
  = map (fun t => {| query := t;
                     search_max_results := arxiv_max_results settings;
                     sort_by := SubmittedDate;
                     sort_order := Descending |}) topics
  /\ Forall (fun p => (now - arxiv_hours_back settings * 3600000000 <= published p)%Z) out.
Proof.
  unfold fetch_papers_for_topics. intros H. split.
  - apply search_papers_normal in H as (fr & Hrun & -> & _ & _).
    exact (for_topics_queries _ _ _ _ _ _ _ Hrun).
  - apply Forall_forall. intros p Hin.
    destruct (returned_from _ _ _ _ _ _ _ _ _ H Hin) as (r & Hr & ->).
    unfold encountered in Hr. apply filter_In in Hr as [_ Hr].
    apply Z.leb_le in Hr. exact Hr.
Qed.

End Callers.

(* ================================================================= *)
(** ** These statements on the concrete collaborator *)

Module DemoMore.

Import Demo.

Local Open Scope list_scope.

Lemma search_single_topic_break_witness :
  cutoff_ok client now = true
  /\ collaborator [] (search_for client "a")
  = yields [a1; a2] (Yield a3 (yields [a4] (Raise "not reached"%string)))
  /\ Forall (fun r => recent (cutoff client now) r = true) [a1; a2]
  /\ recent (cutoff client now) a3 = false
  /\ search_single_topic collaborator overflow client now "a"
     = (Normal [paper_of a1; paper_of a2],
        [Query (search_for client "a"); Next a1; Next a2; Next a3]).
Proof.
  assert (Forall (fun r => recent (cutoff client now) r = true) [a1; a2]) as Hrec
    by (repeat constructor).
  split; [reflexivity|].
  split; [reflexivity|]. split; [exact Hrec|]. split; [reflexivity|].
  exact (search_single_topic_break string collaborator overflow client now "a"
           [a1; a2] a3 (yields [a4] (Raise "not reached"%string))
           eq_refl eq_refl Hrec eq_refl).
Defined.

Lemma search_single_topic_exhausted_witness :
  cutoff_ok client now = true
  /\ collaborator [] (search_for client "b") = yields [b1; b2] Stop
  /\ Forall (fun r => recent (cutoff client now) r = true) [b1; b2]
  /\ search_single_topic collaborator overflow client now "b"
     = (Normal [paper_of b1; paper_of b2],
        [Query (search_for client "b"); Next b1; Next b2]).
Proof.
  assert (Forall (fun r => recent (cutoff client now) r = true) [b1; b2]) as Hrec
    by (repeat constructor).
  split; [reflexivity|].
  split; [reflexivity|]. split; [exact Hrec|].
  exact (search_single_topic_exhausted string collaborator overflow client now "b"
           [b1; b2] eq_refl eq_refl Hrec).
Defined.

Lemma run_a_c_b :
  search_papers collaborator overflow client now ["a"; "c"; "b"]
  = (Raised "HTTP 503"%string, logged ["a"; "c"; "b"]).
Proof. vm_compute. reflexivity. Defined.

Lemma searches_follow_topics_witness :
  search_papers collaborator overflow client now ["a"; "c"; "b"]
  = (Raised "HTTP 503"%string, logged ["a"; "c"; "b"])
  /\ exists n,
       n <= 3
       /\ map query (queries (logged ["a"; "c"; "b"])) = firstn n ["a"; "c"; "b"]%string.
Proof.
  split; [exact run_a_c_b|].
  destruct (searches_follow_topics string collaborator overflow client now
              ["a"; "c"; "b"]%string _ _ run_a_c_b) as (n & Hn & Hq & _).
  exists n. split; [exact Hn|]. rewrite Hq, map_map. apply map_id.
Defined.

Lemma run_far :
  search_papers collaborator overflow far_client now ["a"] = (Raised overflow, []).
Proof. vm_compute. reflexivity. Defined.

Lemma raised_exceptions_origin_witness :
  search_papers collaborator overflow far_client now ["a"] = (Raised overflow, [])
  /\ search_papers collaborator overflow client now ["a"; "c"; "b"]
     = (Raised "HTTP 503"%string, logged ["a"; "c"; "b"])
  /\ cutoff_ok far_client now = false
  /\ exists t lg, In t ["a"; "c"; "b"]%string
                  /\ gen_raises (collaborator lg (search_for client t)) "HTTP 503"%string.
Proof.
  split; [exact run_far|]. split; [exact run_a_c_b|].
  split.
  - destruct (raised_exceptions_origin string collaborator overflow far_client now
                ["a"]%string overflow [] run_far) as [(Hok & _)|(Hok & _)].
    + exact Hok.
    + discriminate Hok.
  - destruct (raised_exceptions_origin string collaborator overflow client now
                ["a"; "c"; "b"]%string "HTTP 503"%string _ run_a_c_b)
      as [(Hok & _)|(_ & H)].
    + discriminate Hok.
    + exact H.
Defined.

Lemma returned_ids_complete_witness :
  search_papers collaborator overflow client now ["a"; "b"]
  = (Normal (returned ["a"; "b"]), logged ["a"; "b"])
  /\ In "2401.00005"%string (map arxiv_id (returned ["a"; "b"]))
  /\ ~ In "2312.00003"%string (map arxiv_id (returned ["a"; "b"])).
Proof.
  split; [exact DemoFacts.run_a_b|]. split.
  - apply (returned_ids_complete string collaborator overflow client now
             ["a"; "b"]%string _ _ "2401.00005"%string DemoFacts.run_a_b).
    exists b1. split; [vm_compute; tauto|]. split; [vm_compute; discriminate|reflexivity].
  - intros Hin. vm_compute in Hin. intuition discriminate.
Defined.

Lemma returned_at_most_witness :
  (forall lg' t, In t ["a"; "b"]%string ->
     List.length (gen_items (collaborator lg' (search_for client t))) <= 4)
  /\ search_papers collaborator overflow client now ["a"; "b"]
     = (Normal (returned ["a"; "b"]), logged ["a"; "b"])
  /\ List.length (returned ["a"; "b"]) <= 2 * 4.
Proof.
  assert (forall lg' t, In t ["a"; "b"]%string ->
            List.length (gen_items (collaborator lg' (search_for client t))) <= 4) as Hn.
  { intros lg' t [<-|[<-|[]]]; vm_compute; lia. }
  split; [exact Hn|]. split; [exact DemoFacts.run_a_b|].
  exact (returned_at_most string collaborator overflow client now
           ["a"; "b"]%string 4 _ _ Hn DemoFacts.run_a_b).
Defined.

Lemma more_topics_only_add_witness :
  search_papers collaborator overflow client now (["a"] ++ ["b"])
  = (Normal (returned ["a"; "b"]), logged ["a"; "b"])
  /\ exists out1 lg1 evs,
       search_papers collaborator overflow client now ["a"] = (Normal out1, lg1)
       /\ logged ["a"; "b"] = lg1 ++ evs
       /\ forall p, In p out1 -> In p (returned ["a"; "b"]).
Proof.
  split; [exact DemoFacts.run_a_b|].
  exact (more_topics_only_add string collaborator overflow client now
           ["a"]%string ["b"]%string _ _ DemoFacts.run_a_b).
Defined.

Lemma nothing_recent_witness :
  cutoff_ok client now = true
  /\ (forall lg t, In t ["d"; "e"]%string ->
     match collaborator lg (search_for client t) with
     | Stop => True
     | Raise _ => False
     | Yield r _ => recent (cutoff client now) r = false
     end)
  /\ exists lg,
       search_papers collaborator overflow client now ["d"; "e"] = (Normal [], lg)
       /\ queries lg = map (search_for client) ["d"; "e"]%string
       /\ List.length (pulled lg) <= 2.
Proof.
  assert (forall lg t, In t ["d"; "e"]%string ->
            match collaborator lg (search_for client t) with
            | Stop => True
            | Raise _ => False
            | Yield r _ => recent (cutoff client now) r = false
            end) as Hstale.
  { intros lg t [<-|[<-|[]]]; reflexivity. }
  split; [reflexivity|]. split; [exact Hstale|].
  exact (nothing_recent string collaborator overflow client now ["d"; "e"]%string
           eq_refl Hstale).
Defined.

Lemma abstracts_on_one_line_witness :
  search_papers collaborator overflow client now ["a"; "b"]
  = (Normal (returned ["a"; "b"]), logged ["a"; "b"])
  /\ In (paper_of a1) (returned ["a"; "b"])
  /\ PyStr.mem LF (Raw.summary a1) = true
  /\ PyStr.mem LF (abstract (paper_of a1)) = false.
Proof.
  split; [exact DemoFacts.run_a_b|]. split; [now left|]. split; [reflexivity|].
  exact (proj1 (abstracts_on_one_line string collaborator overflow client now
                  ["a"; "b"]%string _ _ (paper_of a1)
                  DemoFacts.run_a_b (or_introl eq_refl))).
Defined.

Lemma run_streams_a_b :
  search_papers (fun _ => streams) overflow client now ["a"; "b"]
  = (Normal (returned ["a"; "b"]), logged ["a"; "b"]).
Proof. vm_compute. reflexivity. Defined.

Lemma repeated_topic_adds_nothing_witness :
  search_papers (fun _ => streams) overflow client now ["a"; "b"]
  = (Normal (returned ["a"; "b"]), logged ["a"; "b"])
  /\ In "a"%string ["a"; "b"]%string
  /\ fst (search_papers (fun _ => streams) overflow client now (["a"; "b"] ++ ["a"]))
     = Normal (returned ["a"; "b"]).
Proof.
  split; [exact run_streams_a_b|]. split; [now left|].
  exact (repeated_topic_adds_nothing string streams overflow client now
           ["a"; "b"]%string "a"%string _ _ run_streams_a_b (or_introl eq_refl)).
Defined.

Lemma init_override_is_kept_witness :
  (1 <> 0)%Z /\ (-2 <> 0)%Z /\ PrimFloat.eqb 0.5%float 0%float = false
  /\ hours_back (init default_settings None None (Some 1%Z)) = 1%Z
  /\ max_results (init default_settings None None (Some 1%Z)) = 30%Z
  /\ hours_back (init default_settings (Some 0%Z) (Some 0.5%float) (Some (-2)%Z)) = (-2)%Z
  /\ delay_seconds (init default_settings (Some 0%Z) (Some 0.5%float) (Some (-2)%Z))
     = 0.5%float.
Proof.
  split; [discriminate|]. split; [discriminate|]. split; [reflexivity|].
  split.
  { exact (proj1 (proj2 (proj2 (init_override_is_kept default_settings None None None)))
             1%Z ltac:(discriminate)). }
  split.
  { destruct (init_override_is_kept default_settings None None (Some 1%Z))
      as (_ & _ & _ & Hm & _). rewrite Hm. reflexivity. }
  split.
  { exact (proj1 (proj2 (proj2 (init_override_is_kept default_settings
                                  (Some 0%Z) (Some 0.5%float) None)))
             (-2)%Z ltac:(discriminate)). }
  exact (proj1 (proj2 (init_override_is_kept default_settings
                         (Some 0%Z) None (Some (-2)%Z)))
           0.5%float eq_refl).
Defined.

Lemma fetch_b :
  fetch_papers_for_topics collaborator overflow default_settings now ["b"]
  = (Normal [paper_of b1; paper_of b2],
     [Query (search_for (init default_settings None None None) "b"); Next b1; Next b2]).
Proof. vm_compute. reflexivity. Defined.

Lemma fetch_uses_settings_witness :
  fetch_papers_for_topics collaborator overflow default_settings now ["b"]
  = (Normal [paper_of b1; paper_of b2],
     [Query (search_for (init default_settings None None None) "b"); Next b1; Next b2])
  /\ Forall (fun p => (now - 24 * 3600000000 <= published p)%Z)
       [paper_of b1; paper_of b2].
Proof.
  split; [exact fetch_b|].
  exact (proj2 (fetch_uses_settings string collaborator overflow now default_settings
                  ["b"]%string _ _ fetch_b)).
Defined.

End DemoMore.

(* ================================================================= *)
(** ** [search_papers] in closed form *)

Section ClosedForm.

Local Open Scope list_scope.

Variable Err : Type.
Variable f : Search -> Gen Err.
Variable OverflowError : Err.
Variable self : ArxivClient.
Variable now : datetime.

Lemma consume_encountered c (g : Gen Err) : forall fr o fr',
  consume c g fr = (o, fr') ->
  encountered c (log fr') = encountered c (log fr) ++ recent_prefix c g.
Proof.
  induction g as [|e|r g IH]; intros fr o fr' Hrun.
  - injection Hrun as _ <-. simpl. now rewrite app_nil_r.
  - injection Hrun as _ <-. simpl. now rewrite app_nil_r.
  - cbn [recent_prefix]. destruct (recent c r) eqn:Hr.
    + rewrite (consume_step _ _ _ _ _ Hr) in Hrun. rewrite (IH _ _ _ Hrun).
      cbn [log]. now rewrite encountered_app, encountered_Next, Hr, <- app_assoc.
    + rewrite (consume_old _ _ _ _ _ Hr) in Hrun. injection Hrun as _ <-.
      cbn [log]. now rewrite encountered_app, encountered_Next, Hr.
Qed.

Lemma for_topics_encountered topics : forall fr fr',
  for_topics (fun _ => f) self (cutoff self now) topics fr = (Normal tt, fr') ->
  encountered (cutoff self now) (log fr')
  = encountered (cutoff self now) (log fr) ++ flat_map
      (fun t => recent_prefix (cutoff self now) (f (search_for self t)))
      topics.
Proof.
  induction topics as [|t topics IH]; intros fr fr' Hrun.
  - injection Hrun as <-. simpl. now rewrite app_nil_r.
  - cbn [for_topics] in Hrun. unfold bind in Hrun.
    destruct (search_topic (fun _ => f) self (cutoff self now) t fr)
      as [[[]|e] fr1] eqn:Ht; [|discriminate].
    rewrite (IH _ _ Hrun). rewrite search_topic_eq in Ht.
    rewrite (consume_encountered _ _ _ _ _ Ht). cbn [log flat_map].
    now rewrite encountered_app, encountered_Query, app_nil_r, <- app_assoc.
Qed.

Lemma returned_closed_form topics out lg :
  search_papers (fun _ => f) OverflowError self now topics = (Normal out, lg) ->
  out = sorted_desc published (Dict.values (dedup (flat_map
      (fun t => recent_prefix (cutoff self now) (f (search_for self t)))
      topics))).
Proof.
  intros H. apply search_papers_normal in H as (fr & Hrun & -> & -> & Hco).
  now rewrite Hco, (for_topics_encountered _ _ _ Hrun).
Qed.

(** X20.  With a collaborator that answers a search the same way each
    time, what [search_papers] returns is determined by the recent
    results at the head of each topic's stream: put end to end in the
    order of the topics, reduced to the first result of each identifier,
    and sorted newest first. *)
Theorem search_papers_closed_form topics out lg :
  search_papers (fun _ => f) OverflowError self now topics = (Normal out, lg) ->
  out = sorted_desc published
          (Dict.values
             (dedup (flat_map
                       (fun t => recent_prefix (cutoff self now) (f (search_for self t)))
                       topics))).
Proof. exact (returned_closed_form topics out lg). Qed.

(** X21.  With such a collaborator, the order of the topics does not
    change which identifiers are returned. *)
Theorem topic_order_keeps_ids topics topics' out lg out' lg' :
  Permutation topics topics' ->
  search_papers (fun _ => f) OverflowError self now topics = (Normal out, lg) ->
  search_papers (fun _ => f) OverflowError self now topics' = (Normal out', lg') ->
  forall i, In i (map arxiv_id out) <-> In i (map arxiv_id out').
Proof.
  intros P H H' i.
  assert (forall ts o l,
            search_papers (fun _ => f) OverflowError self now ts = (Normal o, l) ->
            In i (map arxiv_id o)
            <-> exists t r, In t ts /\ In r (recent_prefix (cutoff self now) (f (search_for self t))) /\ result_id r = i) as Hids.
  { intros ts o l Hs. rewrite (returned_closed_form _ _ _ Hs).
    split.
    - intros Hin.
      apply (Permutation_in _ (Permutation_map arxiv_id (sorted_desc_perm _ published _))) in Hin.
      rewrite DedupFacts.dedup_ids in Hin.
      apply DictFacts.mem_keys, DedupFacts.dedup_mem in Hin as (r & Hr & Hid).
      apply in_flat_map in Hr as (t & Ht & Hr). now exists t, r.
    - intros (t & r & Ht & Hr & Hid).
      apply (Permutation_in _ (Permutation_sym
               (Permutation_map arxiv_id (sorted_desc_perm _ published _)))).
      rewrite DedupFacts.dedup_ids. apply DictFacts.mem_keys, DedupFacts.dedup_mem.
      exists r. split; [|exact Hid]. apply in_flat_map. now exists t. }
  rewrite (Hids _ _ _ H), (Hids _ _ _ H').
  split; intros (t & r & Ht & Hr); exists t, r; split; try exact Hr.
  - exact (Permutation_in _ P Ht).
  - exact (Permutation_in _ (Permutation_sym P) Ht).
Qed.

End ClosedForm.

Module DemoClosed.

Import Demo.

Local Open Scope list_scope.

Lemma run_streams_b_a :
  search_papers (fun _ => streams) overflow client now ["b"; "a"]
  = (Normal (returned ["b"; "a"]), logged ["b"; "a"]).
Proof. vm_compute. reflexivity. Defined.

Lemma search_papers_closed_form_witness :
  search_papers (fun _ => streams) overflow client now ["a"; "b"]
  = (Normal (returned ["a"; "b"]), logged ["a"; "b"])
  /\ returned ["a"; "b"]
     = sorted_desc published (Dict.values (dedup ([a1; a2] ++ [b1; b2]))).
Proof.
  split; [exact DemoMore.run_streams_a_b|].
  exact (search_papers_closed_form string streams overflow client now
           ["a"; "b"]%string _ _ DemoMore.run_streams_a_b).
Defined.

(** The two orders return the same identifiers, but not the same papers:
    the first version of [2401.00001] wins when ["b"] comes first. *)
Lemma topic_order_keeps_ids_witness :
  Permutation ["a"; "b"]%string ["b"; "a"]%string
  /\ search_papers (fun _ => streams) overflow client now ["a"; "b"]
     = (Normal (returned ["a"; "b"]), logged ["a"; "b"])
  /\ search_papers (fun _ => streams) overflow client now ["b"; "a"]
     = (Normal (returned ["b"; "a"]), logged ["b"; "a"])
  /\ (In "2401.00002"%string (map arxiv_id (returned ["a"; "b"]))
      <-> In "2401.00002"%string (map arxiv_id (returned ["b"; "a"])))
  /\ map title (returned ["a"; "b"]) = ["Agents"; "Planning"; "Reasoning"]%string
  /\ map title (returned ["b"; "a"])
     = ["Planning"; "Agents, first version"; "Reasoning"]%string.
Proof.
  split; [apply perm_swap|]. split; [exact DemoMore.run_streams_a_b|].
  split; [exact run_streams_b_a|]. split; [|split; reflexivity].
  exact (topic_order_keeps_ids string streams overflow client now
           ["a"; "b"]%string ["b"; "a"]%string _ _ _ _
           (perm_swap _ _ _) DemoMore.run_streams_a_b run_streams_b_a
           "2401.00002"%string).
Defined.

End DemoClosed.
